(** * SECS-II stream/function catalog ([secsgem/secs/functions.py])

    A shallow embedding of the message classes declared in [functions.py] and
    of the table [secsStreamsFunctions] that registers them, followed by a
    model of the data-item codec the classes are built on, and by the
    properties of both. *)

From stdpp Require Import gmap strings list.
From Stdlib Require Import ZArith.
From Stdlib.Strings Require Import Byte.

#[local] Set Warnings "-register-all".
#[local] Open Scope string_scope.
#[local] Open Scope list_scope.
#[local] Open Scope Z_scope.

(** ** Format descriptors *)

(** The data-item classes of [dataitems] that [functions.py] names, either to
    instantiate them ([SecsVarU4(1)]) or to pass them as classes to
    [SecsVarDynamic]. *)
Inductive SecsVarType :=
| SecsVarString | SecsVarBinary
| SecsVarU1 | SecsVarU2 | SecsVarU4 | SecsVarU8
| SecsVarI1 | SecsVarI2 | SecsVarI4 | SecsVarI8.

(** A format descriptor as [functions.py] writes it.
    - [SecsVarArray item] is [SecsVarArray(item)];
    - [SecsVarList pairs n] is [SecsVarList(OrderedDict(pairs), n)]: the node
      keeps the tuple of (name, item) pairs handed to [OrderedDict] together
      with the declared field count;
    - [SecsVarDynamic types] is [SecsVarDynamic([...])], a list of classes;
    - [New cls length] is the instantiation [cls(length)], with [None] for
      [cls()];
    - [DataItem name] is the instantiation [NAME()] of a named data item
      imported from [dataitems] (SVID, ECID, ...). *)
Inductive SecsVar :=
| SecsVarArray (item : SecsVar)
| SecsVarList (pairs : list (string * SecsVar)) (fieldCount : Z)
| SecsVarDynamic (types : list SecsVarType)
| New (cls : SecsVarType) (length : option Z)
| DataItem (name : string).

#[global] Instance SecsVarType_eq_dec : EqDecision SecsVarType.
Proof. solve_decision. Defined.

(** [OrderedDict(pairs)]: the pairs are inserted one after the other; a key
    that is already present keeps its position and takes the new value. *)
Fixpoint od_setitem {V} (k : string) (v : V) (d : list (string * V))
  : list (string * V) :=
  match d with
  | [] => [(k, v)]
  | (k', v') :: d' =>
      if decide (k = k') then (k, v) :: d' else (k', v') :: od_setitem k v d'
  end.

Definition OrderedDict {V} (pairs : list (string * V)) : list (string * V) :=
  foldl (λ d kv, od_setitem kv.1 kv.2 d) [] pairs.

(** Every node of a descriptor, at any depth, the descriptor itself first. *)
Fixpoint nodes (v : SecsVar) : list SecsVar :=
  v :: match v with
       | SecsVarArray item => nodes item
       | SecsVarList pairs _ => flat_map (λ p, nodes p.2) pairs
       | _ => []
       end.

(** ** Message classes *)

(** The class attributes of a [SecsStreamFunction] subclass. *)
Record SecsStreamFunction := {
  __name__ : string;
  _stream : Z;
  _function : Z;
  _formatDescriptor : option SecsVar;
  _toHost : bool;
  _toEquipment : bool;
  _hasReply : bool;
  _isReplyRequired : bool;
  _isMultiBlock : bool }.

(** A dict literal [{k1: v1, k2: v2, ...}]: later keys overwrite earlier ones. *)
Definition dict {V} (items : list (Z * V)) : gmap Z V :=
  foldl (λ m kv, <[kv.1 := kv.2]> m) ∅ items.

(** functions.py:24, stream 00, function 00 - hsms communication *)
Definition SecsS00F00 : SecsStreamFunction := {|
  __name__ := "SecsS00F00"; _stream := 0; _function := 0;
  _formatDescriptor := None;
  _toHost := true; _toEquipment := true;
  _hasReply := false; _isReplyRequired := false;
  _isMultiBlock := false |}.

(** functions.py:50, stream 01, function 00 - abort transaction stream 1 *)
Definition SecsS01F00 : SecsStreamFunction := {|
  __name__ := "SecsS01F00"; _stream := 1; _function := 0;
  _formatDescriptor := None;
  _toHost := true; _toEquipment := true;
  _hasReply := false; _isReplyRequired := false;
  _isMultiBlock := false |}.

(** functions.py:76, stream 01, function 01 - are you online - request *)
Definition SecsS01F01 : SecsStreamFunction := {|
  __name__ := "SecsS01F01"; _stream := 1; _function := 1;
  _formatDescriptor := None;
  _toHost := true; _toEquipment := true;
  _hasReply := true; _isReplyRequired := true;
  _isMultiBlock := false |}.

(** functions.py:102, stream 01, function 02 - on line data *)
Definition SecsS01F02 : SecsStreamFunction := {|
  __name__ := "SecsS01F02"; _stream := 1; _function := 2;
  _formatDescriptor := Some
      (SecsVarArray (New SecsVarString (Some 20)));
  _toHost := true; _toEquipment := true;
  _hasReply := false; _isReplyRequired := false;
  _isMultiBlock := false |}.

(** functions.py:148, stream 01, function 03 - selected equipment status - request *)
Definition SecsS01F03 : SecsStreamFunction := {|
  __name__ := "SecsS01F03"; _stream := 1; _function := 3;
  _formatDescriptor := Some
      (SecsVarArray (DataItem "SVID"));
  _toHost := false; _toEquipment := true;
  _hasReply := true; _isReplyRequired := true;
  _isMultiBlock := false |}.

(** functions.py:190, stream 01, function 04 - selected equipment status - data *)
Definition SecsS01F04 : SecsStreamFunction := {|
  __name__ := "SecsS01F04"; _stream := 1; _function := 4;
  _formatDescriptor := Some
      (SecsVarArray (DataItem "SV"));
  _toHost := true; _toEquipment := false;
  _hasReply := false; _isReplyRequired := false;
  _isMultiBlock := true |}.

(** functions.py:232, stream 01, function 11 - status variable namelist - request *)
Definition SecsS01F11 : SecsStreamFunction := {|
  __name__ := "SecsS01F11"; _stream := 1; _function := 11;
  _formatDescriptor := Some
      (SecsVarArray (DataItem "SVID"));
  _toHost := false; _toEquipment := true;
  _hasReply := true; _isReplyRequired := true;
  _isMultiBlock := false |}.

(** functions.py:275, stream 01, function 12 - status variable namelist - reply *)
Definition SecsS01F12 : SecsStreamFunction := {|
  __name__ := "SecsS01F12"; _stream := 1; _function := 12;
  _formatDescriptor := Some
      (SecsVarArray (SecsVarList [
            ("SVID", DataItem "SVID");
            ("SVNAME", DataItem "SVNAME");
            ("UNITS", DataItem "UNITS")] 3));
  _toHost := true; _toEquipment := false;
  _hasReply := false; _isReplyRequired := false;
  _isMultiBlock := true |}.

(** functions.py:334, stream 01, function 13 - establish communication - request *)
Definition SecsS01F13 : SecsStreamFunction := {|
  __name__ := "SecsS01F13"; _stream := 1; _function := 13;
  _formatDescriptor := Some
      (SecsVarArray (New SecsVarString (Some 20)));
  _toHost := true; _toEquipment := true;
  _hasReply := true; _isReplyRequired := true;
  _isMultiBlock := false |}.

(** functions.py:380, stream 01, function 14 - establish communication - acknowledge *)
Definition SecsS01F14 : SecsStreamFunction := {|
  __name__ := "SecsS01F14"; _stream := 1; _function := 14;
  _formatDescriptor := Some
      (SecsVarList [
          ("COMMACK", DataItem "COMMACK");
          ("DATA", SecsVarArray (New SecsVarString (Some 20)))] 2);
  _toHost := true; _toEquipment := true;
  _hasReply := false; _isReplyRequired := false;
  _isMultiBlock := false |}.

(** functions.py:443, stream 01, function 15 - request offline *)
Definition SecsS01F15 : SecsStreamFunction := {|
  __name__ := "SecsS01F15"; _stream := 1; _function := 15;
  _formatDescriptor := None;
  _toHost := false; _toEquipment := true;
  _hasReply := true; _isReplyRequired := true;
  _isMultiBlock := false |}.

(** functions.py:469, stream 01, function 16 - offline acknowledge *)
Definition SecsS01F16 : SecsStreamFunction := {|
  __name__ := "SecsS01F16"; _stream := 1; _function := 16;
  _formatDescriptor := Some
      (DataItem "OFLACK");
  _toHost := true; _toEquipment := false;
  _hasReply := false; _isReplyRequired := false;
  _isMultiBlock := false |}.

(** functions.py:504, stream 01, function 17 - request offline *)
Definition SecsS01F17 : SecsStreamFunction := {|
  __name__ := "SecsS01F17"; _stream := 1; _function := 17;
  _formatDescriptor := None;
  _toHost := false; _toEquipment := true;
  _hasReply := true; _isReplyRequired := true;
  _isMultiBlock := false |}.

(** functions.py:530, stream 01, function 18 - online acknowledge *)
Definition SecsS01F18 : SecsStreamFunction := {|
  __name__ := "SecsS01F18"; _stream := 1; _function := 18;
  _formatDescriptor := Some
      (DataItem "ONLACK");
  _toHost := true; _toEquipment := false;
  _hasReply := false; _isReplyRequired := false;
  _isMultiBlock := false |}.

(** functions.py:565, stream 02, function 00 - abort transaction stream 2 *)
Definition SecsS02F00 : SecsStreamFunction := {|
  __name__ := "SecsS02F00"; _stream := 2; _function := 0;
  _formatDescriptor := None;
  _toHost := true; _toEquipment := true;
  _hasReply := false; _isReplyRequired := false;
  _isMultiBlock := false |}.

(** functions.py:591, stream 02, function 13 - equipment constant - request *)
Definition SecsS02F13 : SecsStreamFunction := {|
  __name__ := "SecsS02F13"; _stream := 2; _function := 13;
  _formatDescriptor := Some
      (SecsVarArray (DataItem "ECID"));
  _toHost := false; _toEquipment := true;
  _hasReply := true; _isReplyRequired := true;
  _isMultiBlock := false |}.

(** functions.py:634, stream 02, function 14 - equipment constant - data *)
Definition SecsS02F14 : SecsStreamFunction := {|
  __name__ := "SecsS02F14"; _stream := 2; _function := 14;
  _formatDescriptor := Some
      (SecsVarArray (DataItem "ECV"));
  _toHost := true; _toEquipment := false;
  _hasReply := false; _isReplyRequired := false;
  _isMultiBlock := true |}.

(** functions.py:675, stream 02, function 15 - new equipment constant - send *)
Definition SecsS02F15 : SecsStreamFunction := {|
  __name__ := "SecsS02F15"; _stream := 2; _function := 15;
  _formatDescriptor := Some
      (SecsVarArray (SecsVarList [
            ("ECID", DataItem "ECID");
            ("ECV", DataItem "ECV")] 2));
  _toHost := false; _toEquipment := true;
  _hasReply := true; _isReplyRequired := true;
  _isMultiBlock := false |}.

(** functions.py:729, stream 02, function 16 - new equipment constant - acknowledge *)
Definition SecsS02F16 : SecsStreamFunction := {|
  __name__ := "SecsS02F16"; _stream := 2; _function := 16;
  _formatDescriptor := Some
      (DataItem "EAC");
  _toHost := true; _toEquipment := false;
  _hasReply := false; _isReplyRequired := false;
  _isMultiBlock := false |}.

(** functions.py:764, stream 02, function 17 - date and time - request *)
Definition SecsS02F17 : SecsStreamFunction := {|
  __name__ := "SecsS02F17"; _stream := 2; _function := 17;
  _formatDescriptor := None;
  _toHost := true; _toEquipment := true;
  _hasReply := true; _isReplyRequired := true;
  _isMultiBlock := false |}.

(** functions.py:794, stream 02, function 18 - date and time - data *)
Definition SecsS02F18 : SecsStreamFunction := {|
  __name__ := "SecsS02F18"; _stream := 2; _function := 18;
  _formatDescriptor := Some
      (DataItem "TIME");
  _toHost := true; _toEquipment := true;
  _hasReply := false; _isReplyRequired := false;
  _isMultiBlock := false |}.

(** functions.py:829, stream 02, function 29 - equipment constant namelist - request *)
Definition SecsS02F29 : SecsStreamFunction := {|
  __name__ := "SecsS02F29"; _stream := 2; _function := 29;
  _formatDescriptor := Some
      (SecsVarArray (DataItem "ECID"));
  _toHost := false; _toEquipment := true;
  _hasReply := true; _isReplyRequired := true;
  _isMultiBlock := false |}.

(** functions.py:872, stream 02, function 30 - equipment constant namelist *)
Definition SecsS02F30 : SecsStreamFunction := {|
  __name__ := "SecsS02F30"; _stream := 2; _function := 30;
  _formatDescriptor := Some
      (SecsVarArray (SecsVarList [
            ("ECID", DataItem "ECID");
            ("ECNAME", DataItem "ECNAME");
            ("ECMIN", DataItem "ECMIN");
            ("ECMAX", DataItem "ECMAX");
            ("ECDEF", DataItem "ECDEF");
            ("UNITS", DataItem "UNITS")] 6));
  _toHost := true; _toEquipment := false;
  _hasReply := false; _isReplyRequired := false;
  _isMultiBlock := true |}.

(** functions.py:946, stream 02, function 33 - define report *)
Definition SecsS02F33 : SecsStreamFunction := {|
  __name__ := "SecsS02F33"; _stream := 2; _function := 33;
  _formatDescriptor := Some
      (SecsVarList [
          ("DATAID", DataItem "DATAID");
          ("DATA", SecsVarArray (SecsVarList [
                  ("RPTID", DataItem "RPTID");
                  ("VID", SecsVarArray (DataItem "VID"))] 2))] 2);
  _toHost := false; _toEquipment := true;
  _hasReply := true; _isReplyRequired := true;
  _isMultiBlock := true |}.

(** functions.py:1021, stream 02, function 34 - define report - acknowledge *)
Definition SecsS02F34 : SecsStreamFunction := {|
  __name__ := "SecsS02F34"; _stream := 2; _function := 34;
  _formatDescriptor := Some
      (DataItem "DRACK");
  _toHost := true; _toEquipment := false;
  _hasReply := false; _isReplyRequired := false;
  _isMultiBlock := false |}.

(** functions.py:1056, stream 02, function 35 - link event report *)
Definition SecsS02F35 : SecsStreamFunction := {|
  __name__ := "SecsS02F35"; _stream := 2; _function := 35;
  _formatDescriptor := Some
      (SecsVarList [
          ("DATAID", DataItem "DATAID");
          ("DATA", SecsVarArray (SecsVarList [
                  ("CEID", DataItem "CEID");
                  ("RPTID", SecsVarArray (DataItem "RPTID"))] 2))] 2);
  _toHost := false; _toEquipment := true;
  _hasReply := true; _isReplyRequired := true;
  _isMultiBlock := true |}.

(** functions.py:1126, stream 02, function 36 - link event report - acknowledge *)
Definition SecsS02F36 : SecsStreamFunction := {|
  __name__ := "SecsS02F36"; _stream := 2; _function := 36;
  _formatDescriptor := Some
      (DataItem "LRACK");
  _toHost := false; _toEquipment := true;
  _hasReply := false; _isReplyRequired := false;
  _isMultiBlock := false |}.

(** functions.py:1161, stream 02, function 37 - en-/disable event report *)
Definition SecsS02F37 : SecsStreamFunction := {|
  __name__ := "SecsS02F37"; _stream := 2; _function := 37;
  _formatDescriptor := Some
      (SecsVarList [
          ("CEED", DataItem "CEED");
          ("CEID", SecsVarArray (DataItem "CEID"))] 2);
  _toHost := false; _toEquipment := true;
  _hasReply := true; _isReplyRequired := true;
  _isMultiBlock := false |}.

(** functions.py:1211, stream 02, function 38 - en-/disable event report - acknowledge *)
Definition SecsS02F38 : SecsStreamFunction := {|
  __name__ := "SecsS02F38"; _stream := 2; _function := 38;
  _formatDescriptor := Some
      (DataItem "ERACK");
  _toHost := true; _toEquipment := false;
  _hasReply := false; _isReplyRequired := false;
  _isMultiBlock := false |}.

(** functions.py:1246, stream 02, function 41 - host command - send *)
Definition SecsS02F41 : SecsStreamFunction := {|
  __name__ := "SecsS02F41"; _stream := 2; _function := 41;
  _formatDescriptor := Some
      (SecsVarList [
          ("RCMD", DataItem "RCMD");
          ("PARAMS", SecsVarArray (SecsVarList [
                  ("CPNAME", DataItem "CPNAME");
                  ("CPVAL", DataItem "CPVAL")] 2))] 2);
  _toHost := false; _toEquipment := true;
  _hasReply := true; _isReplyRequired := true;
  _isMultiBlock := false |}.

(** functions.py:1312, stream 02, function 42 - host command - acknowledge *)
Definition SecsS02F42 : SecsStreamFunction := {|
  __name__ := "SecsS02F42"; _stream := 2; _function := 42;
  _formatDescriptor := Some
      (SecsVarList [
          ("HCACK", DataItem "HCACK");
          ("PARAMS", SecsVarArray (SecsVarList [
                  ("CPNAME", DataItem "CPNAME");
                  ("CPACK", DataItem "CPACK")] 2))] 2);
  _toHost := true; _toEquipment := false;
  _hasReply := false; _isReplyRequired := false;
  _isMultiBlock := false |}.

(** functions.py:1378, stream 05, function 00 - abort transaction stream 5 *)
Definition SecsS05F00 : SecsStreamFunction := {|
  __name__ := "SecsS05F00"; _stream := 5; _function := 0;
  _formatDescriptor := None;
  _toHost := true; _toEquipment := true;
  _hasReply := false; _isReplyRequired := false;
  _isMultiBlock := false |}.

(** functions.py:1404, stream 05, function 01 - alarm report - send *)
Definition SecsS05F01 : SecsStreamFunction := {|
  __name__ := "SecsS05F01"; _stream := 5; _function := 1;
  _formatDescriptor := Some
      (SecsVarList [
          ("ALCD", DataItem "ALCD");
          ("ALID", DataItem "ALID");
          ("ALTX", DataItem "ALTX")] 3);
  _toHost := true; _toEquipment := false;
  _hasReply := true; _isReplyRequired := false;
  _isMultiBlock := false |}.

(** functions.py:1453, stream 05, function 02 - alarm report - acknowledge *)
Definition SecsS05F02 : SecsStreamFunction := {|
  __name__ := "SecsS05F02"; _stream := 5; _function := 2;
  _formatDescriptor := Some
      (DataItem "ACKC5");
  _toHost := false; _toEquipment := true;
  _hasReply := false; _isReplyRequired := false;
  _isMultiBlock := false |}.

(** functions.py:1488, stream 06, function 00 - abort transaction stream 6 *)
Definition SecsS06F00 : SecsStreamFunction := {|
  __name__ := "SecsS06F00"; _stream := 6; _function := 0;
  _formatDescriptor := None;
  _toHost := true; _toEquipment := true;
  _hasReply := false; _isReplyRequired := false;
  _isMultiBlock := false |}.

(** functions.py:1514, stream 06, function 05 - multi block data inquiry *)
Definition SecsS06F05 : SecsStreamFunction := {|
  __name__ := "SecsS06F05"; _stream := 6; _function := 5;
  _formatDescriptor := Some
      (SecsVarList [
          ("DATAID", DataItem "DATAID");
          ("DATALENGTH", SecsVarDynamic [SecsVarU1; SecsVarU2; SecsVarU4; SecsVarU8; SecsVarI1; SecsVarI2; SecsVarI4; SecsVarI8])] 2);
  _toHost := true; _toEquipment := false;
  _hasReply := true; _isReplyRequired := true;
  _isMultiBlock := false |}.

(** functions.py:1565, stream 06, function 06 - multi block data grant *)
Definition SecsS06F06 : SecsStreamFunction := {|
  __name__ := "SecsS06F06"; _stream := 6; _function := 6;
  _formatDescriptor := Some
      (New SecsVarBinary (Some 1));
  _toHost := false; _toEquipment := true;
  _hasReply := false; _isReplyRequired := false;
  _isMultiBlock := false |}.

(** functions.py:1596, stream 06, function 07 - data transfer request *)
Definition SecsS06F07 : SecsStreamFunction := {|
  __name__ := "SecsS06F07"; _stream := 6; _function := 7;
  _formatDescriptor := Some
      (New SecsVarU4 (Some 1));
  _toHost := false; _toEquipment := true;
  _hasReply := true; _isReplyRequired := true;
  _isMultiBlock := false |}.

(** functions.py:1633, stream 06, function 08 - data transfer data *)
Definition SecsS06F08 : SecsStreamFunction := {|
  __name__ := "SecsS06F08"; _stream := 6; _function := 8;
  _formatDescriptor := Some
      (SecsVarList [
          ("DATAID", DataItem "DATAID");
          ("CEID", DataItem "CEID");
          ("DS", SecsVarArray (SecsVarList [
                  ("DSID", SecsVarDynamic [SecsVarString; SecsVarU1; SecsVarU2; SecsVarU4; SecsVarU8; SecsVarI1; SecsVarI2; SecsVarI4; SecsVarI8]);
                  ("DV", SecsVarArray (SecsVarList [
                          ("DVNAME", SecsVarDynamic [SecsVarString; SecsVarU1; SecsVarU2; SecsVarU4; SecsVarU8; SecsVarI1; SecsVarI2; SecsVarI4; SecsVarI8]);
                          ("DVVAL", SecsVarDynamic [SecsVarString; SecsVarU1; SecsVarU2; SecsVarU4; SecsVarU8; SecsVarI1; SecsVarI2; SecsVarI4; SecsVarI8])] 2))] 2))] 3);
  _toHost := true; _toEquipment := false;
  _hasReply := false; _isReplyRequired := false;
  _isMultiBlock := true |}.

(** functions.py:1741, stream 06, function 11 - event report *)
Definition SecsS06F11 : SecsStreamFunction := {|
  __name__ := "SecsS06F11"; _stream := 6; _function := 11;
  _formatDescriptor := Some
      (SecsVarList [
          ("DATAID", DataItem "DATAID");
          ("CEID", DataItem "CEID");
          ("RPT", SecsVarArray (SecsVarList [
                  ("RPTID", DataItem "RPTID");
                  ("V", SecsVarArray (SecsVarDynamic []))] 2))] 3);
  _toHost := true; _toEquipment := false;
  _hasReply := true; _isReplyRequired := true;
  _isMultiBlock := true |}.

(** functions.py:1814, stream 06, function 12 - event report - acknowledge *)
Definition SecsS06F12 : SecsStreamFunction := {|
  __name__ := "SecsS06F12"; _stream := 6; _function := 12;
  _formatDescriptor := Some
      (New SecsVarBinary (Some 1));
  _toHost := false; _toEquipment := true;
  _hasReply := false; _isReplyRequired := false;
  _isMultiBlock := false |}.

(** functions.py:1845, stream 06, function 15 - event report request *)
Definition SecsS06F15 : SecsStreamFunction := {|
  __name__ := "SecsS06F15"; _stream := 6; _function := 15;
  _formatDescriptor := Some
      (DataItem "CEID");
  _toHost := false; _toEquipment := true;
  _hasReply := true; _isReplyRequired := true;
  _isMultiBlock := false |}.

(** functions.py:1882, stream 06, function 16 - event report data *)
Definition SecsS06F16 : SecsStreamFunction := {|
  __name__ := "SecsS06F16"; _stream := 6; _function := 16;
  _formatDescriptor := Some
      (SecsVarList [
          ("DATAID", DataItem "DATAID");
          ("CEID", DataItem "CEID");
          ("RPT", SecsVarArray (SecsVarList [
                  ("RPTID", DataItem "RPTID");
                  ("V", SecsVarArray (SecsVarDynamic []))] 2))] 3);
  _toHost := true; _toEquipment := false;
  _hasReply := false; _isReplyRequired := false;
  _isMultiBlock := true |}.

(** functions.py:1955, stream 06, function 19 - individual report request *)
Definition SecsS06F19 : SecsStreamFunction := {|
  __name__ := "SecsS06F19"; _stream := 6; _function := 19;
  _formatDescriptor := Some
      (DataItem "RPTID");
  _toHost := false; _toEquipment := true;
  _hasReply := true; _isReplyRequired := true;
  _isMultiBlock := false |}.

(** functions.py:1992, stream 06, function 20 - individual report data *)
Definition SecsS06F20 : SecsStreamFunction := {|
  __name__ := "SecsS06F20"; _stream := 6; _function := 20;
  _formatDescriptor := Some
      (SecsVarArray (SecsVarDynamic []));
  _toHost := true; _toEquipment := false;
  _hasReply := false; _isReplyRequired := false;
  _isMultiBlock := true |}.

(** functions.py:2028, stream 06, function 21 - annotated individual report request *)
Definition SecsS06F21 : SecsStreamFunction := {|
  __name__ := "SecsS06F21"; _stream := 6; _function := 21;
  _formatDescriptor := Some
      (DataItem "RPTID");
  _toHost := false; _toEquipment := true;
  _hasReply := true; _isReplyRequired := true;
  _isMultiBlock := false |}.

(** functions.py:2065, stream 06, function 22 - annotated individual report data *)
Definition SecsS06F22 : SecsStreamFunction := {|
  __name__ := "SecsS06F22"; _stream := 6; _function := 22;
  _formatDescriptor := Some
      (SecsVarArray (SecsVarList [
            ("VID", DataItem "VID");
            ("V", SecsVarDynamic [])] 2));
  _toHost := true; _toEquipment := false;
  _hasReply := false; _isReplyRequired := false;
  _isMultiBlock := true |}.

(** functions.py:2118, stream 07, function 00 - abort transaction stream 7 *)
Definition SecsS07F00 : SecsStreamFunction := {|
  __name__ := "SecsS07F00"; _stream := 7; _function := 0;
  _formatDescriptor := None;
  _toHost := true; _toEquipment := true;
  _hasReply := false; _isReplyRequired := false;
  _isMultiBlock := false |}.

(** functions.py:2144, stream 07, function 01 - process program load - inquire *)
Definition SecsS07F01 : SecsStreamFunction := {|
  __name__ := "SecsS07F01"; _stream := 7; _function := 1;
  _formatDescriptor := Some
      (SecsVarList [
          ("PPID", New SecsVarString None);
          ("LENGTH", New SecsVarU4 (Some 1))] 2);
  _toHost := true; _toEquipment := true;
  _hasReply := true; _isReplyRequired := true;
  _isMultiBlock := false |}.

(** functions.py:2184, stream 07, function 02 - process program load - grant *)
Definition SecsS07F02 : SecsStreamFunction := {|
  __name__ := "SecsS07F02"; _stream := 7; _function := 2;
  _formatDescriptor := Some
      (New SecsVarBinary (Some 1));
  _toHost := true; _toEquipment := true;
  _hasReply := false; _isReplyRequired := false;
  _isMultiBlock := false |}.

(** functions.py:2215, stream 07, function 03 - process program - send *)
Definition SecsS07F03 : SecsStreamFunction := {|
  __name__ := "SecsS07F03"; _stream := 7; _function := 3;
  _formatDescriptor := Some
      (SecsVarList [
          ("PPID", New SecsVarString None);
          ("PPBODY", New SecsVarBinary None)] 2);
  _toHost := true; _toEquipment := true;
  _hasReply := true; _isReplyRequired := true;
  _isMultiBlock := true |}.

(** functions.py:2255, stream 07, function 04 - process program - acknowledge *)
Definition SecsS07F04 : SecsStreamFunction := {|
  __name__ := "SecsS07F04"; _stream := 7; _function := 4;
  _formatDescriptor := Some
      (New SecsVarBinary (Some 1));
  _toHost := true; _toEquipment := true;
  _hasReply := false; _isReplyRequired := false;
  _isMultiBlock := false |}.

(** functions.py:2286, stream 07, function 05 - process program - request *)
Definition SecsS07F05 : SecsStreamFunction := {|
  __name__ := "SecsS07F05"; _stream := 7; _function := 5;
  _formatDescriptor := Some
      (New SecsVarString None);
  _toHost := true; _toEquipment := true;
  _hasReply := true; _isReplyRequired := true;
  _isMultiBlock := false |}.

(** functions.py:2317, stream 07, function 06 - process program - data *)
Definition SecsS07F06 : SecsStreamFunction := {|
  __name__ := "SecsS07F06"; _stream := 7; _function := 6;
  _formatDescriptor := Some
      (SecsVarList [
          ("PPID", New SecsVarString None);
          ("PPBODY", New SecsVarBinary None)] 2);
  _toHost := true; _toEquipment := true;
  _hasReply := false; _isReplyRequired := false;
  _isMultiBlock := true |}.

(** functions.py:2357, stream 07, function 17 - delete process program - send *)
Definition SecsS07F17 : SecsStreamFunction := {|
  __name__ := "SecsS07F17"; _stream := 7; _function := 17;
  _formatDescriptor := Some
      (SecsVarArray (New SecsVarString None));
  _toHost := false; _toEquipment := true;
  _hasReply := true; _isReplyRequired := true;
  _isMultiBlock := false |}.

(** functions.py:2394, stream 07, function 18 - delete process program - acknowledge *)
Definition SecsS07F18 : SecsStreamFunction := {|
  __name__ := "SecsS07F18"; _stream := 7; _function := 18;
  _formatDescriptor := Some
      (New SecsVarBinary (Some 1));
  _toHost := true; _toEquipment := false;
  _hasReply := false; _isReplyRequired := false;
  _isMultiBlock := false |}.

(** functions.py:2425, stream 07, function 19 - current equipment process program - request *)
Definition SecsS07F19 : SecsStreamFunction := {|
  __name__ := "SecsS07F19"; _stream := 7; _function := 19;
  _formatDescriptor := None;
  _toHost := false; _toEquipment := true;
  _hasReply := true; _isReplyRequired := true;
  _isMultiBlock := false |}.

(** functions.py:2451, stream 07, function 20 - current equipment process program - data *)
Definition SecsS07F20 : SecsStreamFunction := {|
  __name__ := "SecsS07F20"; _stream := 7; _function := 20;
  _formatDescriptor := Some
      (SecsVarArray (New SecsVarString None));
  _toHost := true; _toEquipment := false;
  _hasReply := false; _isReplyRequired := false;
  _isMultiBlock := true |}.

(** functions.py:2488, stream 09, function 00 - abort transaction stream 9 *)
Definition SecsS09F00 : SecsStreamFunction := {|
  __name__ := "SecsS09F00"; _stream := 9; _function := 0;
  _formatDescriptor := None;
  _toHost := true; _toEquipment := true;
  _hasReply := false; _isReplyRequired := false;
  _isMultiBlock := false |}.

(** functions.py:2514, stream 09, function 01 - unrecognized device id *)
Definition SecsS09F01 : SecsStreamFunction := {|
  __name__ := "SecsS09F01"; _stream := 9; _function := 1;
  _formatDescriptor := Some
      (New SecsVarBinary (Some 10));
  _toHost := true; _toEquipment := false;
  _hasReply := false; _isReplyRequired := false;
  _isMultiBlock := false |}.

(** functions.py:2545, stream 09, function 03 - unrecognized stream type *)
Definition SecsS09F03 : SecsStreamFunction := {|
  __name__ := "SecsS09F03"; _stream := 9; _function := 3;
  _formatDescriptor := Some
      (New SecsVarBinary (Some 10));
  _toHost := true; _toEquipment := false;
  _hasReply := false; _isReplyRequired := false;
  _isMultiBlock := false |}.

(** functions.py:2576, stream 09, function 05 - unrecognized function type *)
Definition SecsS09F05 : SecsStreamFunction := {|
  __name__ := "SecsS09F05"; _stream := 9; _function := 5;
  _formatDescriptor := Some
      (New SecsVarBinary (Some 10));
  _toHost := true; _toEquipment := false;
  _hasReply := false; _isReplyRequired := false;
  _isMultiBlock := false |}.

(** functions.py:2607, stream 09, function 07 - illegal data *)
Definition SecsS09F07 : SecsStreamFunction := {|
  __name__ := "SecsS09F07"; _stream := 9; _function := 7;
  _formatDescriptor := Some
      (New SecsVarBinary (Some 10));
  _toHost := true; _toEquipment := false;
  _hasReply := false; _isReplyRequired := false;
  _isMultiBlock := false |}.

(** functions.py:2638, stream 09, function 09 - transaction timer timeout *)
Definition SecsS09F09 : SecsStreamFunction := {|
  __name__ := "SecsS09F09"; _stream := 9; _function := 9;
  _formatDescriptor := Some
      (New SecsVarBinary (Some 10));
  _toHost := true; _toEquipment := false;
  _hasReply := false; _isReplyRequired := false;
  _isMultiBlock := false |}.

(** functions.py:2669, stream 09, function 11 - data too long *)
Definition SecsS09F11 : SecsStreamFunction := {|
  __name__ := "SecsS09F11"; _stream := 9; _function := 11;
  _formatDescriptor := Some
      (New SecsVarBinary (Some 10));
  _toHost := true; _toEquipment := false;
  _hasReply := false; _isReplyRequired := false;
  _isMultiBlock := false |}.

(** functions.py:2700, stream 09, function 13 - conversation timeout *)
Definition SecsS09F13 : SecsStreamFunction := {|
  __name__ := "SecsS09F13"; _stream := 9; _function := 13;
  _formatDescriptor := Some
      (SecsVarList [
          ("MEXP", New SecsVarString (Some 6));
          ("EDID", New SecsVarString (Some 80))] 2);
  _toHost := true; _toEquipment := false;
  _hasReply := false; _isReplyRequired := false;
  _isMultiBlock := false |}.

(** functions.py:2740, stream 10, function 00 - abort transaction stream 10 *)
Definition SecsS10F00 : SecsStreamFunction := {|
  __name__ := "SecsS10F00"; _stream := 10; _function := 0;
  _formatDescriptor := None;
  _toHost := true; _toEquipment := true;
  _hasReply := false; _isReplyRequired := false;
  _isMultiBlock := false |}.

(** functions.py:2766, stream 10, function 01 - terminal - request *)
Definition SecsS10F01 : SecsStreamFunction := {|
  __name__ := "SecsS10F01"; _stream := 10; _function := 1;
  _formatDescriptor := Some
      (SecsVarList [
          ("TID", New SecsVarBinary (Some 1));
          ("TEXT", New SecsVarString None)] 2);
  _toHost := true; _toEquipment := false;
  _hasReply := true; _isReplyRequired := false;
  _isMultiBlock := false |}.

(** functions.py:2806, stream 10, function 02 - terminal - acknowledge *)
Definition SecsS10F02 : SecsStreamFunction := {|
  __name__ := "SecsS10F02"; _stream := 10; _function := 2;
  _formatDescriptor := Some
      (New SecsVarBinary (Some 1));
  _toHost := false; _toEquipment := true;
  _hasReply := false; _isReplyRequired := false;
  _isMultiBlock := false |}.

(** functions.py:2837, stream 10, function 03 - terminal single - display *)
Definition SecsS10F03 : SecsStreamFunction := {|
  __name__ := "SecsS10F03"; _stream := 10; _function := 3;
  _formatDescriptor := Some
      (SecsVarList [
          ("TID", New SecsVarBinary (Some 1));
          ("TEXT", New SecsVarString None)] 2);
  _toHost := false; _toEquipment := true;
  _hasReply := true; _isReplyRequired := false;
  _isMultiBlock := false |}.

(** functions.py:2877, stream 10, function 04 - terminal single - acknowledge *)
Definition SecsS10F04 : SecsStreamFunction := {|
  __name__ := "SecsS10F04"; _stream := 10; _function := 4;
  _formatDescriptor := Some
      (New SecsVarBinary (Some 1));
  _toHost := true; _toEquipment := false;
  _hasReply := false; _isReplyRequired := false;
  _isMultiBlock := false |}.

(** functions.py:2908, stream 12, function 00 - abort transaction stream 12 *)
Definition SecsS12F00 : SecsStreamFunction := {|
  __name__ := "SecsS12F00"; _stream := 12; _function := 0;
  _formatDescriptor := None;
  _toHost := true; _toEquipment := true;
  _hasReply := false; _isReplyRequired := false;
  _isMultiBlock := false |}.

(** functions.py:2934, stream 12, function 01 - map setup data - send *)
Definition SecsS12F01 : SecsStreamFunction := {|
  __name__ := "SecsS12F01"; _stream := 12; _function := 1;
  _formatDescriptor := Some
      (SecsVarList [
          ("MID", New SecsVarString (Some 16));
          ("IDTYP", New SecsVarBinary (Some 1));
          ("FNLOC", New SecsVarU2 (Some 1));
          ("FFROT", New SecsVarU2 (Some 1));
          ("ORLOC", New SecsVarBinary (Some 1));
          ("RPSEL", New SecsVarU1 (Some 1));
          ("REF", SecsVarArray (New SecsVarI4 (Some 2)));
          ("DUTMS", New SecsVarString None);
          ("XDIES", New SecsVarU4 (Some 1));
          ("YDIES", New SecsVarU4 (Some 1));
          ("ROWCT", New SecsVarU4 (Some 1));
          ("COLCT", New SecsVarU4 (Some 1));
          ("NULBC", SecsVarDynamic [SecsVarString; SecsVarU1]);
          ("PRDCT", New SecsVarU4 (Some 1));
          ("PRAXI", New SecsVarBinary (Some 1))] 15);
  _toHost := true; _toEquipment := false;
  _hasReply := true; _isReplyRequired := true;
  _isMultiBlock := false |}.

(** functions.py:3036, stream 12, function 02 - map setup data - acknowledge *)
Definition SecsS12F02 : SecsStreamFunction := {|
  __name__ := "SecsS12F02"; _stream := 12; _function := 2;
  _formatDescriptor := Some
      (New SecsVarBinary (Some 1));
  _toHost := false; _toEquipment := true;
  _hasReply := false; _isReplyRequired := false;
  _isMultiBlock := false |}.

(** functions.py:3067, stream 12, function 03 - map setup data - request *)
Definition SecsS12F03 : SecsStreamFunction := {|
  __name__ := "SecsS12F03"; _stream := 12; _function := 3;
  _formatDescriptor := Some
      (SecsVarList [
          ("MID", New SecsVarString (Some 16));
          ("IDTYP", New SecsVarBinary (Some 1));
          ("MAPFT", New SecsVarBinary (Some 1));
          ("FNLOC", New SecsVarU2 (Some 1));
          ("FFROT", New SecsVarU2 (Some 1));
          ("ORLOC", New SecsVarBinary (Some 1));
          ("PRAXI", New SecsVarBinary (Some 1));
          ("BCEQU", New SecsVarU1 None);
          ("NULBC", SecsVarDynamic [SecsVarString; SecsVarU1])] 9);
  _toHost := true; _toEquipment := false;
  _hasReply := true; _isReplyRequired := true;
  _isMultiBlock := false |}.

(** functions.py:3137, stream 12, function 04 - map setup data *)
Definition SecsS12F04 : SecsStreamFunction := {|
  __name__ := "SecsS12F04"; _stream := 12; _function := 4;
  _formatDescriptor := Some
      (SecsVarList [
          ("MID", New SecsVarString (Some 16));
          ("IDTYP", New SecsVarBinary (Some 1));
          ("FNLOC", New SecsVarU2 (Some 1));
          ("ORLOC", New SecsVarBinary (Some 1));
          ("RPSEL", New SecsVarU1 (Some 1));
          ("REF", SecsVarArray (New SecsVarI4 (Some 2)));
          ("DUTMS", New SecsVarString None);
          ("XDIES", New SecsVarU4 (Some 1));
          ("YDIES", New SecsVarU4 (Some 1));
          ("ROWCT", New SecsVarU4 (Some 1));
          ("COLCT", New SecsVarU4 (Some 1));
          ("PRDCT", New SecsVarU4 (Some 1));
          ("BCEQU", New SecsVarU1 None);
          ("NULBC", SecsVarDynamic [SecsVarString; SecsVarU1]);
          ("MLCL", New SecsVarU4 (Some 1))] 15);
  _toHost := false; _toEquipment := true;
  _hasReply := false; _isReplyRequired := false;
  _isMultiBlock := false |}.

(** functions.py:3239, stream 12, function 05 - map transmit inquire *)
Definition SecsS12F05 : SecsStreamFunction := {|
  __name__ := "SecsS12F05"; _stream := 12; _function := 5;
  _formatDescriptor := Some
      (SecsVarList [
          ("MID", New SecsVarString (Some 16));
          ("IDTYP", New SecsVarBinary (Some 1));
          ("MAPFT", New SecsVarBinary (Some 1));
          ("MLCL", New SecsVarU4 (Some 1))] 4);
  _toHost := true; _toEquipment := false;
  _hasReply := true; _isReplyRequired := true;
  _isMultiBlock := false |}.

(** functions.py:3285, stream 12, function 06 - map transmit - grant *)
Definition SecsS12F06 : SecsStreamFunction := {|
  __name__ := "SecsS12F06"; _stream := 12; _function := 6;
  _formatDescriptor := Some
      (New SecsVarBinary (Some 1));
  _toHost := false; _toEquipment := true;
  _hasReply := false; _isReplyRequired := false;
  _isMultiBlock := false |}.

(** functions.py:3316, stream 12, function 07 - map data type 1 - send *)
Definition SecsS12F07 : SecsStreamFunction := {|
  __name__ := "SecsS12F07"; _stream := 12; _function := 7;
  _formatDescriptor := Some
      (SecsVarList [
          ("MID", New SecsVarString (Some 16));
          ("IDTYP", New SecsVarBinary (Some 1));
          ("DATA", SecsVarArray (SecsVarList [
                  ("RSINF", New SecsVarI4 (Some 3));
                  ("BINLT", New SecsVarU1 None)] 2))] 3);
  _toHost := true; _toEquipment := false;
  _hasReply := true; _isReplyRequired := true;
  _isMultiBlock := true |}.

(** functions.py:3378, stream 12, function 08 - map data type 1 - acknowledge *)
Definition SecsS12F08 : SecsStreamFunction := {|
  __name__ := "SecsS12F08"; _stream := 12; _function := 8;
  _formatDescriptor := Some
      (New SecsVarBinary (Some 1));
  _toHost := false; _toEquipment := true;
  _hasReply := false; _isReplyRequired := false;
  _isMultiBlock := false |}.

(** functions.py:3409, stream 12, function 09 - map data type 2 - send *)
Definition SecsS12F09 : SecsStreamFunction := {|
  __name__ := "SecsS12F09"; _stream := 12; _function := 9;
  _formatDescriptor := Some
      (SecsVarList [
          ("MID", New SecsVarString (Some 16));
          ("IDTYP", New SecsVarBinary (Some 1));
          ("STRP", New SecsVarI2 (Some 2));
          ("BINLT", New SecsVarU1 None)] 4);
  _toHost := true; _toEquipment := false;
  _hasReply := true; _isReplyRequired := true;
  _isMultiBlock := true |}.

(** functions.py:3455, stream 12, function 10 - map data type 2 - acknowledge *)
Definition SecsS12F10 : SecsStreamFunction := {|
  __name__ := "SecsS12F10"; _stream := 12; _function := 10;
  _formatDescriptor := Some
      (New SecsVarBinary (Some 1));
  _toHost := false; _toEquipment := true;
  _hasReply := false; _isReplyRequired := false;
  _isMultiBlock := false |}.

(** functions.py:3486, stream 12, function 11 - map data type 3 - send *)
Definition SecsS12F11 : SecsStreamFunction := {|
  __name__ := "SecsS12F11"; _stream := 12; _function := 11;
  _formatDescriptor := Some
      (SecsVarList [
          ("MID", New SecsVarString (Some 16));
          ("IDTYP", New SecsVarBinary (Some 1));
          ("DATA", SecsVarArray (SecsVarList [
                  ("XYPOS", New SecsVarI2 (Some 2));
                  ("BINLT", New SecsVarU1 None)] 2))] 3);
  _toHost := true; _toEquipment := false;
  _hasReply := true; _isReplyRequired := true;
  _isMultiBlock := true |}.

(** functions.py:3548, stream 12, function 12 - map data type 3 - acknowledge *)
Definition SecsS12F12 : SecsStreamFunction := {|
  __name__ := "SecsS12F12"; _stream := 12; _function := 12;
  _formatDescriptor := Some
      (New SecsVarBinary (Some 1));
  _toHost := false; _toEquipment := true;
  _hasReply := false; _isReplyRequired := false;
  _isMultiBlock := false |}.

(** functions.py:3579, stream 12, function 13 - map data type 1 - request *)
Definition SecsS12F13 : SecsStreamFunction := {|
  __name__ := "SecsS12F13"; _stream := 12; _function := 13;
  _formatDescriptor := Some
      (SecsVarList [
          ("MID", New SecsVarString (Some 16));
          ("IDTYP", New SecsVarBinary (Some 1))] 2);
  _toHost := true; _toEquipment := false;
  _hasReply := true; _isReplyRequired := true;
  _isMultiBlock := false |}.

(** functions.py:3619, stream 12, function 14 - map data type 1 *)
Definition SecsS12F14 : SecsStreamFunction := {|
  __name__ := "SecsS12F14"; _stream := 12; _function := 14;
  _formatDescriptor := Some
      (SecsVarList [
          ("MID", New SecsVarString (Some 16));
          ("IDTYP", New SecsVarBinary (Some 1));
          ("DATA", SecsVarArray (SecsVarList [
                  ("RSINF", New SecsVarI4 (Some 3));
                  ("BINLT", New SecsVarU1 None)] 2))] 3);
  _toHost := false; _toEquipment := true;
  _hasReply := false; _isReplyRequired := false;
  _isMultiBlock := true |}.

(** functions.py:3681, stream 12, function 15 - map data type 2 - request *)
Definition SecsS12F15 : SecsStreamFunction := {|
  __name__ := "SecsS12F15"; _stream := 12; _function := 15;
  _formatDescriptor := Some
      (SecsVarList [
          ("MID", New SecsVarString (Some 16));
          ("IDTYP", New SecsVarBinary (Some 1))] 2);
  _toHost := true; _toEquipment := false;
  _hasReply := true; _isReplyRequired := true;
  _isMultiBlock := false |}.

(** functions.py:3721, stream 12, function 16 - map data type 2 *)
Definition SecsS12F16 : SecsStreamFunction := {|
  __name__ := "SecsS12F16"; _stream := 12; _function := 16;
  _formatDescriptor := Some
      (SecsVarList [
          ("MID", New SecsVarString (Some 16));
          ("IDTYP", New SecsVarBinary (Some 1));
          ("STRP", New SecsVarI2 (Some 2));
          ("BINLT", New SecsVarU1 None)] 4);
  _toHost := false; _toEquipment := true;
  _hasReply := false; _isReplyRequired := false;
  _isMultiBlock := true |}.

(** functions.py:3767, stream 12, function 17 - map data type 3 - request *)
Definition SecsS12F17 : SecsStreamFunction := {|
  __name__ := "SecsS12F17"; _stream := 12; _function := 17;
  _formatDescriptor := Some
      (SecsVarList [
          ("MID", New SecsVarString (Some 16));
          ("IDTYP", New SecsVarBinary (Some 1));
          ("SDBIN", New SecsVarBinary (Some 1))] 3);
  _toHost := true; _toEquipment := false;
  _hasReply := true; _isReplyRequired := true;
  _isMultiBlock := false |}.

(** functions.py:3810, stream 12, function 18 - map data type 3 *)
Definition SecsS12F18 : SecsStreamFunction := {|
  __name__ := "SecsS12F18"; _stream := 12; _function := 18;
  _formatDescriptor := Some
      (SecsVarList [
          ("MID", New SecsVarString (Some 16));
          ("IDTYP", New SecsVarBinary (Some 1));
          ("DATA", SecsVarArray (SecsVarList [
                  ("XYPOS", New SecsVarI2 (Some 2));
                  ("BINLT", New SecsVarU1 None)] 2))] 3);
  _toHost := false; _toEquipment := true;
  _hasReply := false; _isReplyRequired := false;
  _isMultiBlock := true |}.

(** functions.py:3872, stream 12, function 19 - map error report - send *)
Definition SecsS12F19 : SecsStreamFunction := {|
  __name__ := "SecsS12F19"; _stream := 12; _function := 19;
  _formatDescriptor := Some
      (SecsVarList [
          ("MAPER", New SecsVarBinary (Some 1));
          ("DATLC", New SecsVarU1 (Some 1))] 2);
  _toHost := true; _toEquipment := true;
  _hasReply := false; _isReplyRequired := false;
  _isMultiBlock := false |}.

(** functions.py:3912, stream 14, function 00 - abort transaction stream 14 *)
Definition SecsS14F00 : SecsStreamFunction := {|
  __name__ := "SecsS14F00"; _stream := 14; _function := 0;
  _formatDescriptor := None;
  _toHost := true; _toEquipment := true;
  _hasReply := false; _isReplyRequired := false;
  _isMultiBlock := false |}.

(** functions.py:3938, stream 14, function 01 - GetAttr request; the class
    also carries the constants [RELATION], which no property below reads. *)
Definition SecsS14F01 : SecsStreamFunction := {|
  __name__ := "SecsS14F01"; _stream := 14; _function := 1;
  _formatDescriptor := Some
      (SecsVarList [
          ("OBJSPEC", New SecsVarString None);
          ("OBJTYPE", SecsVarDynamic [SecsVarString; SecsVarU1; SecsVarU2; SecsVarU4; SecsVarU8]);
          ("OBJID", SecsVarArray (SecsVarDynamic [SecsVarString; SecsVarU1; SecsVarU2; SecsVarU4; SecsVarU8]));
          ("FILTER", SecsVarArray (SecsVarList [
                  ("ATTRID", SecsVarDynamic [SecsVarString; SecsVarU1; SecsVarU2; SecsVarU4; SecsVarU8]);
                  ("ATTRDATA", SecsVarDynamic []);
                  ("ATTRRELN", New SecsVarU1 (Some 1))] 3));
          ("ATTRID", SecsVarArray (SecsVarDynamic [SecsVarString; SecsVarU1; SecsVarU2; SecsVarU4; SecsVarU8]))] 5);
  _toHost := true; _toEquipment := true;
  _hasReply := true; _isReplyRequired := true;
  _isMultiBlock := false |}.

(** functions.py:4041, stream 14, function 02 - GetAttr data *)
Definition SecsS14F02 : SecsStreamFunction := {|
  __name__ := "SecsS14F02"; _stream := 14; _function := 2;
  _formatDescriptor := Some
      (SecsVarList [
          ("DATA", SecsVarArray (SecsVarList [
                  ("OBJID", SecsVarDynamic [SecsVarString; SecsVarU1; SecsVarU2; SecsVarU4; SecsVarU8]);
                  ("ATTRIBS", SecsVarArray (SecsVarList [
                          ("ATTRID", SecsVarDynamic [SecsVarString; SecsVarU1; SecsVarU2; SecsVarU4; SecsVarU8]);
                          ("ATTRDATA", SecsVarDynamic [])] 2))] 2));
          ("ERRORS", SecsVarList [
                ("OBJACK", New SecsVarU1 (Some 1));
                ("ERROR", SecsVarArray (SecsVarList [
                        ("ERRCODE", SecsVarDynamic [SecsVarU1; SecsVarU2; SecsVarU4; SecsVarU8]);
                        ("ERRTEXT", New SecsVarString None)] 2))] 2)] 2);
  _toHost := true; _toEquipment := true;
  _hasReply := false; _isReplyRequired := false;
  _isMultiBlock := true |}.

(** functions.py:4160, stream 14, function 03 - SetAttr request *)
Definition SecsS14F03 : SecsStreamFunction := {|
  __name__ := "SecsS14F03"; _stream := 14; _function := 3;
  _formatDescriptor := Some
      (SecsVarList [
          ("OBJSPEC", New SecsVarString None);
          ("OBJTYPE", SecsVarDynamic [SecsVarString; SecsVarU1; SecsVarU2; SecsVarU4; SecsVarU8]);
          ("OBJID", SecsVarArray (SecsVarDynamic [SecsVarString; SecsVarU1; SecsVarU2; SecsVarU4; SecsVarU8]));
          ("ATTRIBS", SecsVarArray (SecsVarList [
                  ("ATTRID", SecsVarDynamic [SecsVarString; SecsVarU1; SecsVarU2; SecsVarU4; SecsVarU8]);
                  ("ATTRDATA", SecsVarDynamic [])] 2))] 4);
  _toHost := true; _toEquipment := true;
  _hasReply := true; _isReplyRequired := true;
  _isMultiBlock := false |}.

(** functions.py:4239, stream 14, function 04 - SetAttr data *)
Definition SecsS14F04 : SecsStreamFunction := {|
  __name__ := "SecsS14F04"; _stream := 14; _function := 4;
  _formatDescriptor := Some
      (SecsVarList [
          ("DATA", SecsVarArray (SecsVarList [
                  ("OBJID", SecsVarDynamic [SecsVarString; SecsVarU1; SecsVarU2; SecsVarU4; SecsVarU8]);
                  ("ATTRIBS", SecsVarArray (SecsVarList [
                          ("ATTRID", SecsVarDynamic [SecsVarString; SecsVarU1; SecsVarU2; SecsVarU4; SecsVarU8]);
                          ("ATTRDATA", SecsVarDynamic [])] 2))] 2));
          ("ERRORS", SecsVarList [
                ("OBJACK", New SecsVarU1 (Some 1));
                ("ERROR", SecsVarArray (SecsVarList [
                        ("ERRCODE", SecsVarDynamic [SecsVarU1; SecsVarU2; SecsVarU4; SecsVarU8]);
                        ("ERRTEXT", New SecsVarString None)] 2))] 2)] 2);
  _toHost := true; _toEquipment := true;
  _hasReply := false; _isReplyRequired := false;
  _isMultiBlock := true |}.

Definition secsStreamsFunctions : gmap Z (gmap Z SecsStreamFunction) :=
  dict [
  (0, dict [
       (0, SecsS00F00)]);
  (1, dict [
       (0, SecsS01F00);
       (1, SecsS01F01);
       (2, SecsS01F02);
       (3, SecsS01F03);
       (4, SecsS01F04);
       (11, SecsS01F11);
       (12, SecsS01F12);
       (13, SecsS01F13);
       (14, SecsS01F14);
       (15, SecsS01F15);
       (16, SecsS01F16);
       (17, SecsS01F17);
       (18, SecsS01F18)]);
  (2, dict [
       (0, SecsS02F00);
       (13, SecsS02F13);
       (14, SecsS02F14);
       (15, SecsS02F15);
       (16, SecsS02F16);
       (17, SecsS02F17);
       (18, SecsS02F18);
       (29, SecsS02F29);
       (30, SecsS02F30);
       (33, SecsS02F33);
       (34, SecsS02F34);
       (35, SecsS02F35);
       (36, SecsS02F36);
       (37, SecsS02F37);
       (38, SecsS02F38);
       (41, SecsS02F41);
       (42, SecsS02F42)]);
  (5, dict [
       (0, SecsS05F00);
       (1, SecsS05F01);
       (2, SecsS05F02)]);
  (6, dict [
       (0, SecsS06F00);
       (5, SecsS06F05);
       (6, SecsS06F06);
       (7, SecsS06F07);
       (8, SecsS06F08);
       (11, SecsS06F11);
       (12, SecsS06F12);
       (15, SecsS06F15);
       (16, SecsS06F16);
       (19, SecsS06F19);
       (20, SecsS06F20);
       (21, SecsS06F21);
       (22, SecsS06F22)]);
  (7, dict [
       (1, SecsS07F01);
       (2, SecsS07F02);
       (3, SecsS07F03);
       (4, SecsS07F04);
       (5, SecsS07F05);
       (6, SecsS07F06);
       (17, SecsS07F17);
       (18, SecsS07F18);
       (19, SecsS07F19);
       (20, SecsS07F20)]);
  (9, dict [
       (0, SecsS09F00);
       (1, SecsS09F01);
       (3, SecsS09F03);
       (5, SecsS09F05);
       (7, SecsS09F07);
       (9, SecsS09F09);
       (11, SecsS09F11);
       (13, SecsS09F13)]);
  (10, dict [
       (0, SecsS10F00);
       (1, SecsS10F01);
       (2, SecsS10F02);
       (3, SecsS10F03);
       (4, SecsS10F04)]);
  (12, dict [
       (0, SecsS12F00);
       (1, SecsS12F01);
       (2, SecsS12F02);
       (3, SecsS12F03);
       (4, SecsS12F04);
       (5, SecsS12F05);
       (6, SecsS12F06);
       (7, SecsS12F07);
       (8, SecsS12F08);
       (9, SecsS12F09);
       (10, SecsS12F10);
       (11, SecsS12F11);
       (12, SecsS12F12);
       (13, SecsS12F13);
       (14, SecsS12F14);
       (15, SecsS12F15);
       (16, SecsS12F16);
       (17, SecsS12F17);
       (18, SecsS12F18);
       (19, SecsS12F19)]);
  (14, dict [
       (0, SecsS14F00);
       (1, SecsS14F01);
       (2, SecsS14F02);
       (3, SecsS14F03);
       (4, SecsS14F04)])].

(** ** Reading the catalog *)

(** The class that the table binds to (stream, function), read as
    [secsStreamsFunctions[stream][function]] with [None] where either key is
    absent. *)
Definition Catalog_lookup (stream function : Z) : option SecsStreamFunction :=
  secsStreamsFunctions !! stream ≫= λ functions, functions !! function.

(** The registered (stream, function, class) triples. *)
Definition registered : list (Z * Z * SecsStreamFunction) :=
  '(stream, functions) ← map_to_list secsStreamsFunctions;
  '(function, cls) ← map_to_list functions;
  [(stream, function, cls)].

(** The streams that have an entry of their own in the table. *)
Definition registeredStreams : list Z :=
  (map_to_list secsStreamsFunctions).*1.

(** ** Predicates on descriptors and classes *)

Definition isVarArray (v : SecsVar) : bool :=
  match v with SecsVarArray _ => true | _ => false end.

(** An item instantiated without a length: nothing bounds its element count. *)
Definition isUnsized (v : SecsVar) : bool :=
  match v with New _ None => true | _ => false end.

(** The descriptor has a component whose encoded length has no maximum. *)
Definition unboundedLength (fd : SecsVar) : bool :=
  existsb (λ v, isVarArray v || isUnsized v) (nodes fd).

(** The nodes of the descriptor of a class, none when it has no descriptor. *)
Definition descriptorNodes (cls : SecsStreamFunction) : list SecsVar :=
  from_option nodes [] (_formatDescriptor cls).

(** A [SecsVarList] node declares as many fields as it is given pairs, and
    the given names are pairwise different. *)
Definition listNodeOk (v : SecsVar) : Prop :=
  match v with
  | SecsVarList pairs fieldCount =>
      fieldCount = Z.of_nat (length pairs) ∧ NoDup pairs.*1
  | _ => True
  end.

#[global] Instance listNodeOk_dec v : Decision (listNodeOk v).
Proof. destruct v; simpl; apply _. Defined.

(** The attributes every "abort transaction" class is declared with. *)
Definition isAbort (cls : SecsStreamFunction) : Prop :=
  _formatDescriptor cls = None ∧
  _toHost cls = true ∧ _toEquipment cls = true ∧
  _hasReply cls = false ∧ _isReplyRequired cls = false ∧
  _isMultiBlock cls = false.

#[global] Instance isAbort_dec cls : Decision (isAbort cls).
Proof. unfold isAbort. apply _. Defined.

(** The streams whose function 0 is registered. *)
Definition abortStreams : list Z := [0; 1; 2; 5; 6; 9; 10; 12; 14].

(** Pattern-matching on a registered triple. *)
Definition onEntry (P : Z → Z → SecsStreamFunction → Prop)
  (e : Z * Z * SecsStreamFunction) : Prop := P e.1.1 e.1.2 e.2.

#[global] Instance onEntry_dec P `{∀ s f c, Decision (P s f c)} e :
  Decision (onEntry P e).
Proof. unfold onEntry. apply _. Defined.

(** ** The data-item codec

    [functions.py] builds its descriptors from the classes of [dataitems],
    whose code is not part of this development. What follows is the codec as
    the specification describes it: formats, schema trees, the trees of data
    items, [build], [encode] and [decode]. *)

(** Modelled from the spec: the fixed enumeration of format codes ("list,
    boolean, ASCII, binary, signed/unsigned integer of width 1/2/4/8, float
    of width 4/8"). *)
Inductive Format :=
| FList | FBinary | FBoolean | FASCII
| FI8 | FI1 | FI2 | FI4
| FF8 | FF4
| FU8 | FU1 | FU2 | FU4.

#[global] Instance Format_eq_dec : EqDecision Format.
Proof. solve_decision. Defined.

(** Modelled from the spec: the format-code table, "a fixed external contract
    defined by the published standard"; the values are the standard's
    (octal 00, 10, 11, 20, 30, 31, 32, 34, 40, 44, 50, 51, 52, 54). *)
Definition formatCode (f : Format) : Z :=
  match f with
  | FList => 0 | FBinary => 8 | FBoolean => 9 | FASCII => 16
  | FI8 => 24 | FI1 => 25 | FI2 => 26 | FI4 => 28
  | FF8 => 32 | FF4 => 36
  | FU8 => 40 | FU1 => 41 | FU2 => 42 | FU4 => 44
  end.

Definition allFormats : list Format :=
  [FList; FBinary; FBoolean; FASCII; FI8; FI1; FI2; FI4; FF8; FF4;
   FU8; FU1; FU2; FU4].

(** The format a wire code stands for, if it is a recognized one. *)
Definition formatOfCode (code : Z) : option Format :=
  find (λ f, bool_decide (formatCode f = code)) allFormats.

Definition isScalar (f : Format) : bool :=
  match f with FList => false | _ => true end.

(** Modelled from the spec: bytes per element ("signed/unsigned integers of
    width 1/2/4/8 bytes, 4/8-byte floats", one byte per boolean, raw bytes
    for ASCII and binary). *)
Definition width (f : Format) : Z :=
  match f with
  | FList => 1
  | FBinary | FBoolean | FASCII | FI1 | FU1 => 1
  | FI2 | FU2 => 2
  | FI4 | FU4 | FF4 => 4
  | FI8 | FU8 | FF8 => 8
  end.

Definition isSigned (f : Format) : bool :=
  match f with FI1 | FI2 | FI4 | FI8 => true | _ => false end.

(** Modelled from the spec: "format code fully determines payload encoding
    and the value's legal domain". An element is an integer: a byte for ASCII
    and binary, 0 or 1 for a boolean, the number itself for the integer
    formats, and the IEEE-754 bit pattern for the float formats. *)
Definition domain (f : Format) : Z * Z :=
  match f with
  | FBoolean => (0, 1)
  | _ => if isSigned f
         then (- 2 ^ (8 * width f - 1), 2 ^ (8 * width f - 1) - 1)
         else (0, 2 ^ (8 * width f) - 1)
  end.

Definition inDomain (f : Format) (z : Z) : bool :=
  ((domain f).1 <=? z) && (z <=? (domain f).2).

(** Modelled from the spec: "an optional length constraint (exact count,
    maximum count, or unconstrained)". *)
Inductive LengthConstraint :=
| Exact (n : Z)
| AtMost (n : Z)
| Unconstrained.

Definition lengthOk (c : LengthConstraint) (n : Z) : bool :=
  match c with
  | Exact k => n =? k
  | AtMost k => n <=? k
  | Unconstrained => true
  end.

(** Modelled from the spec: the FormatDescriptor, "an immutable schema tree
    (structure only, no values)" of Scalar, List (named fields in schema
    order, with the declared arity), Array (one element schema) and
    DynamicUnion (a whitelist of formats, empty for any). *)
Inductive FormatDescriptor :=
| ScalarSchema (fmt : Format) (len : LengthConstraint)
| ListSchema (fields : list (string * FormatDescriptor)) (arity : Z)
| ArraySchema (elem : FormatDescriptor)
| DynamicUnion (whitelist : list Format).

(** Modelled from the spec: the tree of data items of one message instance.
    A DynamicUnion node is the concrete item it defers to. *)
Inductive DataItemTree :=
| ScalarItem (fmt : Format) (elems : list Z)
| ListItem (fields : list (string * DataItemTree))
| ArrayItem (elems : list DataItemTree).

(** Modelled from the spec: an application value handed to [build]. A bare
    number; a value of a stated format (text, bytes, booleans, floats, or
    numbers of an "explicitly supplied" width); a sequence, giving fields or
    elements by position; a record, giving fields by name. *)
Inductive AppValue :=
| Number (z : Z)
| Typed (fmt : Format) (elems : list Z)
| Sequence (items : list AppValue)
| ByName (fields : list (string * AppValue)).

(** Modelled from the spec: the error taxonomy of section 7. *)
Inductive Error :=
| FormatError
| ValueRangeError
| StructureError
| UnsupportedTypeError
| UnknownMessageError.

Inductive result (A : Type) :=
| Ok (a : A)
| Err (e : Error).
Arguments Ok {A} a.
Arguments Err {A} e.

#[global] Instance result_ret : MRet result := λ A, Ok.
#[global] Instance result_bind : MBind result := λ A B f m,
  match m with Ok a => f a | Err e => Err e end.
#[global] Instance result_fmap : FMap result := λ A B f m,
  match m with Ok a => Ok (f a) | Err e => Err e end.

(** Run [f] over a list, stopping at the first error. *)
Definition traverse {A B} (f : A → result B) : list A → result (list B) :=
  fix go l :=
    match l with
    | [] => Ok []
    | a :: l' => b ← f a; bs ← go l'; Ok (b :: bs)
    end.

(** *** Bytes *)

Definition byteToZ (b : byte) : Z := Z.of_N (Byte.to_N b).

(** The byte of value [z mod 256]. *)
Definition byteOfZ (z : Z) : byte :=
  default x00 (Byte.of_N (Z.to_N (z mod 256))).

(** [w] bytes, most significant first, of [z mod 256^w]. *)
Fixpoint bigEndian (w : nat) (z : Z) : list byte :=
  match w with
  | O => []
  | S w' => bigEndian w' (z / 256) ++ [byteOfZ z]
  end.

Definition fromBigEndian (bs : list byte) : Z :=
  foldl (λ acc b, acc * 256 + byteToZ b) 0 bs.

(** Cut [bs] into [k] pieces of [w] bytes. *)
Fixpoint chunks (k w : nat) (bs : list byte) : list (list byte) :=
  match k with
  | O => []
  | S k' => take w bs :: chunks k' w (drop w bs)
  end.

(** *** The item header *)

(** Modelled from the spec: "1-3" length bytes holding "a big-endian unsigned
    count"; the encoder takes the fewest that hold the count and has none for
    a count of 2^24 or more. *)
Definition lengthBytes (n : Z) : result (list byte) :=
  if n <? 0 then Err ValueRangeError
  else if n <? 2 ^ 8 then Ok (bigEndian 1 n)
  else if n <? 2 ^ 16 then Ok (bigEndian 2 n)
  else if n <? 2 ^ 24 then Ok (bigEndian 3 n)
  else Err ValueRangeError.

(** Modelled from the spec: "1 header byte - bits 7-2 format code, bits 1-0
    number of following length bytes", then the length bytes. *)
Definition encodeHeader (f : Format) (n : Z) : result (list byte) :=
  lb ← lengthBytes n;
  Ok (byteOfZ (formatCode f * 4 + Z.of_nat (length lb)) :: lb).

Definition decodeHeader (bs : list byte) : result (Format * Z * list byte) :=
  match bs with
  | [] => Err FormatError
  | b :: rest =>
      match formatOfCode (byteToZ b / 4) with
      | None => Err FormatError
      | Some f =>
          let nl := Z.to_nat (byteToZ b mod 4) in
          if bool_decide (nl = 0%nat) then Err FormatError
          else if bool_decide (length rest < nl)%nat then Err FormatError
          else Ok (f, fromBigEndian (take nl rest), drop nl rest)
      end
  end.

(** *** Scalars *)

(** Modelled from the spec: "Integers: big-endian, fixed width per declared
    type"; a negative element is sent in two's complement. *)
Definition encodeElem (f : Format) (z : Z) : list byte :=
  bigEndian (Z.to_nat (width f)) z.

Definition decodeElem (f : Format) (bs : list byte) : Z :=
  let u := fromBigEndian bs in
  if isSigned f && (2 ^ (8 * width f - 1) <=? u)
  then u - 2 ^ (8 * width f) else u.

(** Modelled from the spec: the construction of a Scalar of [dataitems],
    which checks the values against the range of the format and the count
    against the length constraint. *)
Definition buildScalar (f : Format) (c : LengthConstraint) (elems : list Z)
  : result DataItemTree :=
  if negb (isScalar f) then Err StructureError
  else if negb (forallb (inDomain f) elems) then Err ValueRangeError
  else if negb (lengthOk c (Z.of_nat (length elems))) then Err StructureError
  else Ok (ScalarItem f elems).

(** Modelled from the spec: the decoding of a Scalar of [dataitems];
    "Decode rejects a payload length not a multiple of the element width",
    and [n] is the byte count of the header. *)
Definition decodeScalar (f : Format) (c : LengthConstraint) (n : Z)
    (bs : list byte) : result (DataItemTree * list byte) :=
  if negb (isScalar f) then Err FormatError
  else if negb (n mod width f =? 0) then Err FormatError
  else if Z.of_nat (length bs) <? n then Err FormatError
  else
    let payload := take (Z.to_nat n) bs in
    let elems :=
      decodeElem f <$>
        chunks (Z.to_nat (n / width f)) (Z.to_nat (width f)) payload in
    if negb (forallb (inDomain f) elems) then Err FormatError
    else if negb (lengthOk c (Z.of_nat (length elems)))
    then Err StructureError
    else Ok (ScalarItem f elems, drop (Z.to_nat n) bs).

(** *** Build *)

(** A whitelist permits its members; the empty whitelist permits every
    format. *)
Definition permitted (whitelist : list Format) (f : Format) : bool :=
  match whitelist with
  | [] => true
  | _ => bool_decide (f ∈ whitelist)
  end.

(** The integer formats, narrowest first. *)
Definition integerFormats : list Format :=
  [FU1; FI1; FU2; FI2; FU4; FI4; FU8; FI8].

(** Modelled from the spec: the construction of a DynamicUnion of
    [dataitems], which matches the value against its whitelist, a bare number
    going to "the narrowest integer width that fits"; a sequence becomes an
    Array of items of any format. *)
Fixpoint buildDynamic (whitelist : list Format) (a : AppValue)
  : result DataItemTree :=
  match a with
  | Number z =>
      match find (λ f, permitted whitelist f && inDomain f z) integerFormats
      with
      | Some f => Ok (ScalarItem f [z])
      | None => Err UnsupportedTypeError
      end
  | Typed f elems =>
      if permitted whitelist f then buildScalar f Unconstrained elems
      else Err UnsupportedTypeError
  | Sequence items =>
      if permitted whitelist FList
      then ArrayItem <$> traverse (buildDynamic []) items
      else Err UnsupportedTypeError
  | ByName _ => Err UnsupportedTypeError
  end.

(** The numbers of a sequence of bare numbers. *)
Definition numbers (items : list AppValue) : result (list Z) :=
  traverse (λ a, match a with Number z => Ok z | _ => Err StructureError end)
    items.

(** The values of a record in the order of the schema's names; the record
    has to expose exactly these names. *)
Definition byPosition (names : list string)
    (fields : list (string * AppValue)) : result (list AppValue) :=
  if bool_decide (length fields = length names)
  then traverse (λ k, match list_find (λ kv, kv.1 = k) fields with
                      | Some (_, kv) => Ok kv.2
                      | None => Err StructureError
                      end) names
  else Err StructureError.

(** Build the fields of a List, one value per field, in schema order. *)
Definition buildFields
    (bld : FormatDescriptor → AppValue → result DataItemTree)
  : list (string * FormatDescriptor) → list AppValue →
    result (list (string * DataItemTree)) :=
  fix go fs items :=
    match fs, items with
    | [], [] => Ok []
    | (k, s) :: fs', a :: items' =>
        v ← bld s a; vs ← go fs' items'; Ok ((k, v) :: vs)
    | _, _ => Err StructureError
    end.

(** Modelled from the spec: [build] of [dataitems], which
    "validates/structures an application value"; a List takes its fields by position or by name and stores them
    in schema order, an Array builds every element against the element
    schema, and any failure fails the whole construction. *)
Fixpoint build (s : FormatDescriptor) (a : AppValue) : result DataItemTree :=
  match s with
  | ScalarSchema f c =>
      match a with
      | Number z => buildScalar f c [z]
      | Typed f' elems =>
          if bool_decide (f' = f) then buildScalar f c elems
          else Err StructureError
      | Sequence items => zs ← numbers items; buildScalar f c zs
      | ByName _ => Err StructureError
      end
  | ListSchema fields arity =>
      items ← match a with
              | Sequence items => Ok items
              | ByName r => byPosition fields.*1 r
              | _ => Err StructureError
              end;
      if bool_decide (Z.of_nat (length items) = arity)
      then ListItem <$> buildFields build fields items
      else Err StructureError
  | ArraySchema elem =>
      match a with
      | Sequence items => ArrayItem <$> traverse (build elem) items
      | _ => Err StructureError
      end
  | DynamicUnion whitelist => buildDynamic whitelist a
  end.

(** *** Encode *)

(** Modelled from the spec: [encode] of [dataitems]; a scalar is its header,
    counting payload bytes, and its elements; a List or an Array is its
    header, counting elements, and the encodings of its children in order. *)
Fixpoint encode (v : DataItemTree) : result (list byte) :=
  match v with
  | ScalarItem f elems =>
      if negb (isScalar f) then Err StructureError
      else if negb (forallb (inDomain f) elems) then Err ValueRangeError
      else
        let payload := elems ≫= encodeElem f in
        header ← encodeHeader f (Z.of_nat (length payload));
        Ok (header ++ payload)
  | ListItem fields =>
      body ← traverse (λ kv, encode kv.2) fields;
      header ← encodeHeader FList (Z.of_nat (length fields));
      Ok (header ++ concat body)
  | ArrayItem elems =>
      body ← traverse encode elems;
      header ← encodeHeader FList (Z.of_nat (length elems));
      Ok (header ++ concat body)
  end.

(** The counts of the tree fit the three length bytes of a header. *)
Fixpoint encodable (v : DataItemTree) : bool :=
  match v with
  | ScalarItem f elems => width f * Z.of_nat (length elems) <? 2 ^ 24
  | ListItem fields =>
      (Z.of_nat (length fields) <? 2 ^ 24)
      && forallb (λ kv, encodable kv.2) fields
  | ArrayItem elems =>
      (Z.of_nat (length elems) <? 2 ^ 24) && forallb encodable elems
  end.

(** *** Decode *)

(** Decode [k] items one after the other with [dec]. *)
Definition decodeMany {A} (dec : list byte → result (A * list byte))
  : nat → list byte → result (list A * list byte) :=
  fix go k bs :=
    match k with
    | O => Ok ([], bs)
    | S k' => '(a, bs1) ← dec bs; '(as_, bs2) ← go k' bs1; Ok (a :: as_, bs2)
    end.

(** A reader of item headers: the format, the count, and the bytes that
    follow the header. [decodeHeader] is the reader of the decoder; the
    decoder is written over its reader, so that the same decoder can be run
    with a reader that takes fewer headers. *)
Definition HeaderReader : Type :=
  list byte → result (Format * Z * list byte).

#[global] Instance byte_eq_decision : EqDecision byte := byte_eq_dec.


(** Modelled from the spec: the decoding of a DynamicUnion of [dataitems],
    which reads the wire format code, maps it to a concrete type and rejects
    it if the whitelist excludes it. A list code is an Array of items of any
    format, so the nesting follows the bytes; [fuel] bounds it. *)
Fixpoint decodeDynamicWith (rd : HeaderReader) (fuel : nat)
    (whitelist : list Format) (bs : list byte)
  : result (DataItemTree * list byte) :=
  match fuel with
  | O => Err FormatError
  | S fuel' =>
      '(f, n, rest) ← rd bs;
      if negb (permitted whitelist f) then Err UnsupportedTypeError
      else
        match f with
        | FList =>
            '(elems, rest') ←
              decodeMany (decodeDynamicWith rd fuel' []) (Z.to_nat n) rest;
            Ok (ArrayItem elems, rest')
        | _ => decodeScalar f Unconstrained n rest
        end
  end.

(** Decode the fields of a List one after the other, in schema order. *)
Definition decodeFields
    (dec : FormatDescriptor → list byte → result (DataItemTree * list byte))
  : list (string * FormatDescriptor) → list byte →
    result (list (string * DataItemTree) * list byte) :=
  fix go fs bs :=
    match fs with
    | [] => Ok ([], bs)
    | (k, s) :: fs' =>
        '(v, bs1) ← dec s bs; '(vs, bs2) ← go fs' bs1; Ok ((k, v) :: vs, bs2)
    end.

(** Modelled from the spec: [decode] of [dataitems]; List "reads that
    count, then decodes exactly that many children in schema order; a wire
    count differing from schema arity is a StructureError"; Array "reads the
    count and decodes that many elements from the single element schema".
    The result is the item and the bytes that follow it. *)
Fixpoint decodeWith (rd : HeaderReader) (s : FormatDescriptor)
    (bs : list byte) : result (DataItemTree * list byte) :=
  match s with
  | ScalarSchema f c =>
      '(f', n, rest) ← rd bs;
      if bool_decide (f' = f) then decodeScalar f c n rest
      else Err FormatError
  | ListSchema fields arity =>
      '(f', n, rest) ← rd bs;
      if negb (bool_decide (f' = FList)) then Err FormatError
      else if negb (bool_decide (n = arity)) then Err StructureError
      else
        '(vs, rest') ← decodeFields (decodeWith rd) fields rest;
        Ok (ListItem vs, rest')
  | ArraySchema elem =>
      '(f', n, rest) ← rd bs;
      if negb (bool_decide (f' = FList)) then Err FormatError
      else
        '(vs, rest') ← decodeMany (decodeWith rd elem) (Z.to_nat n) rest;
        Ok (ArrayItem vs, rest')
  | DynamicUnion whitelist => decodeDynamicWith rd (length bs) whitelist bs
  end.

(** The decoder: [decodeWith] reading every header the wire format has. *)
Definition decode : FormatDescriptor → list byte →
                    result (DataItemTree * list byte) :=
  decodeWith decodeHeader.

(** Modelled from the spec: [parse(bytes) -> DataItem tree] of [dataitems],
    the decode of a whole buffer; bytes left over are a wrong length. *)
Definition parseWith (rd : HeaderReader) (s : FormatDescriptor)
    (bs : list byte) : result DataItemTree :=
  '(v, rest) ← decodeWith rd s bs;
  match rest with
  | [] => Ok v
  | _ => Err FormatError
  end.

(** The parser: [parseWith] reading every header the wire format has. *)
Definition parse : FormatDescriptor → list byte → result DataItemTree :=
  parseWith decodeHeader.


(** *** Messages *)









(** *** Statements and examples *)









(** ** The declarations as a whole *)

(** The classes that [functions.py] declares, in the order of the file. *)
Definition declaredClasses : list SecsStreamFunction :=
  [SecsS00F00; SecsS01F00; SecsS01F01; SecsS01F02; SecsS01F03; SecsS01F04;
   SecsS01F11; SecsS01F12; SecsS01F13; SecsS01F14; SecsS01F15; SecsS01F16;
   SecsS01F17; SecsS01F18; SecsS02F00; SecsS02F13; SecsS02F14; SecsS02F15;
   SecsS02F16; SecsS02F17; SecsS02F18; SecsS02F29; SecsS02F30; SecsS02F33;
   SecsS02F34; SecsS02F35; SecsS02F36; SecsS02F37; SecsS02F38; SecsS02F41;
   SecsS02F42; SecsS05F00; SecsS05F01; SecsS05F02; SecsS06F00; SecsS06F05;
   SecsS06F06; SecsS06F07; SecsS06F08; SecsS06F11; SecsS06F12; SecsS06F15;
   SecsS06F16; SecsS06F19; SecsS06F20; SecsS06F21; SecsS06F22; SecsS07F00;
   SecsS07F01; SecsS07F02; SecsS07F03; SecsS07F04; SecsS07F05; SecsS07F06;
   SecsS07F17; SecsS07F18; SecsS07F19; SecsS07F20; SecsS09F00; SecsS09F01;
   SecsS09F03; SecsS09F05; SecsS09F07; SecsS09F09; SecsS09F11; SecsS09F13;
   SecsS10F00; SecsS10F01; SecsS10F02; SecsS10F03; SecsS10F04; SecsS12F00;
   SecsS12F01; SecsS12F02; SecsS12F03; SecsS12F04; SecsS12F05; SecsS12F06;
   SecsS12F07; SecsS12F08; SecsS12F09; SecsS12F10; SecsS12F11; SecsS12F12;
   SecsS12F13; SecsS12F14; SecsS12F15; SecsS12F16; SecsS12F17; SecsS12F18;
   SecsS12F19; SecsS14F00; SecsS14F01; SecsS14F02; SecsS14F03; SecsS14F04].

(** The (stream, function) pair a class declares. *)
Definition identity (cls : SecsStreamFunction) : Z * Z :=
  (_stream cls, _function cls).

(** A number below 100 in two decimal digits, as the class names write the
    stream and the function. *)
Definition twoDigits (n : Z) : string :=
  String (Ascii.ascii_of_N (48 + Z.to_N (n / 10)))
    (String (Ascii.ascii_of_N (48 + Z.to_N (n mod 10))) EmptyString).

(** The name under which the class of a pair is declared. *)
Definition className (stream function : Z) : string :=
  String.append "SecsS"
    (String.append (twoDigits stream)
       (String.append "F" (twoDigits function))).

(** The nesting depth of a descriptor, 1 for an item without children. *)
Fixpoint depth (v : SecsVar) : nat :=
  S match v with
    | SecsVarArray item => depth item
    | SecsVarList pairs _ => foldr (λ p d, Nat.max (depth p.2) d) 0%nat pairs
    | _ => 0%nat
    end.

(** The named data item that a field holds, itself or as the element of an
    array. *)
Definition heldItem (v : SecsVar) : option string :=
  match v with
  | DataItem name => Some name
  | SecsVarArray (DataItem name) => Some name
  | _ => None
  end.

(** In a [SecsVarList] node, a field that holds a named data item bears the
    name of the item. *)
Definition fieldNamesOk (v : SecsVar) : Prop :=
  match v with
  | SecsVarList pairs _ =>
      Forall (λ kv, from_option (λ name, kv.1 = name) True (heldItem kv.2))
        pairs
  | _ => True
  end.

#[global] Instance from_option_dec {A} (P : A → Prop) (Q : Prop)
    `{∀ a, Decision (P a)} `{Decision Q} o : Decision (from_option P Q o).
Proof. destruct o; simpl; apply _. Defined.

#[global] Instance fieldNamesOk_dec v : Decision (fieldNamesOk v).
Proof. destruct v; simpl; apply _. Defined.

(** The reply goes where the primary comes from: [reply] is sent to the host
    exactly when [primary] is sent to the equipment, and the other way
    round. *)
Definition mirrors (primary reply : SecsStreamFunction) : Prop :=
  _toHost reply = _toEquipment primary ∧
  _toEquipment reply = _toHost primary.

(** The streams that have an entry in the table. *)
Definition knownStreams : list Z := [0; 1; 2; 5; 6; 7; 9; 10; 12; 14].

(** The primaries whose reply is optional. *)
Definition optionalReply : list (Z * Z) := [(5, 1); (10, 1); (10, 3)].

(** [SecsS14F01.RELATION] (functions.py:4029), the codes of the relations of
    a filter; a dict literal with string keys. *)
Definition RELATION : gmap string Z :=
  foldl (λ m kv, <[kv.1 := kv.2]> m) ∅
    [("EQUAL", 0); ("NOTEQUAL", 1); ("LESS", 2); ("LESSEQUAL", 3);
     ("GREATER", 4); ("GREATEREQUAL", 5); ("PRESENT", 6);
     ("NOTPRESENT", 7)].

(** The order in which the whitelists of [functions.py] name their classes:
    text first, then the unsigned and the signed integers by width. *)
Definition typeOrder : list SecsVarType :=
  [SecsVarString; SecsVarU1; SecsVarU2; SecsVarU4; SecsVarU8;
   SecsVarI1; SecsVarI2; SecsVarI4; SecsVarI8].

(** [l] is [k] with some elements left out. *)
Fixpoint isSublist (l k : list SecsVarType) : bool :=
  match l, k with
  | [], _ => true
  | _ :: _, [] => false
  | x :: l', y :: k' =>
      if decide (x = y) then isSublist l' k' else isSublist l k'
  end.

Definition whitelistOk (v : SecsVar) : Prop :=
  match v with
  | SecsVarDynamic types => isSublist types typeOrder = true
  | _ => True
  end.

#[global] Instance whitelistOk_dec v : Decision (whitelistOk v).
Proof. destruct v; simpl; apply _. Defined.

(** * Properties of the catalog *)

Lemma lookup_registered stream function cls :
  Catalog_lookup stream function = Some cls ↔
  (stream, function, cls) ∈ registered.
Proof.
  unfold Catalog_lookup, registered. split.
  - intros H. apply bind_Some in H as (fs & Hs & Hf).
    apply list_elem_of_bind. exists (stream, fs). split.
    + apply list_elem_of_bind. exists (function, cls). split.
      * apply list_elem_of_singleton. reflexivity.
      * by apply elem_of_map_to_list.
    + by apply elem_of_map_to_list.
  - intros H. apply list_elem_of_bind in H as ([s fs] & H & Hs).
    apply list_elem_of_bind in H as ([f c] & H & Hf).
    apply list_elem_of_singleton in H. simplify_eq.
    apply elem_of_map_to_list in Hs, Hf. by rewrite Hs.
Qed.

(** The table lists 95 classes, as many as its literal has entries. *)
Lemma registered_length : length registered = 95%nat.
Proof. vm_compute. reflexivity. Qed.

(** A decidable property that holds of every listed triple holds of every
    pair the lookup resolves. *)
Lemma registered_all (P : Z → Z → SecsStreamFunction → Prop) :
  Forall (onEntry P) registered →
  ∀ stream function cls,
    Catalog_lookup stream function = Some cls → P stream function cls.
Proof.
  intros HP stream function cls H. apply lookup_registered in H.
  rewrite Forall_forall in HP. exact (HP _ H).
Qed.

(** The same, with the property checked by its decision procedure. *)
Lemma registered_all_dec (P : Z → Z → SecsStreamFunction → Prop)
    `{∀ s f c, Decision (P s f c)} :
  bool_decide (Forall (onEntry P) registered) = true →
  ∀ stream function cls,
    Catalog_lookup stream function = Some cls → P stream function cls.
Proof. intros HP. apply registered_all. by apply bool_decide_eq_true in HP. Qed.

(** Settle a closed decidable statement by running its decision procedure. *)
Ltac by_decide :=
  lazymatch goal with
  | |- ?P => apply (bool_decide_eq_true_1 P); vm_compute; reflexivity
  end.

(** Settle a statement over all catalog entries by running its decision
    procedure over the table. *)
Ltac by_table :=
  lazymatch goal with
  | |- ∀ s f c, Catalog_lookup s f = Some c → @?P s f c =>
      apply (registered_all_dec P); vm_compute; reflexivity
  end.

(** C1: looking up (1, 1) gives the class [SecsS01F01] ("are you online"),
    whose [_hasReply] and [_isReplyRequired] are both true, and looking up
    the unregistered pair (99, 99) gives [None]. *)
Theorem lookup_S1F1_and_unknown :
  Catalog_lookup 1 1 = Some SecsS01F01 ∧
  _hasReply SecsS01F01 = true ∧ _isReplyRequired SecsS01F01 = true ∧
  Catalog_lookup 99 99 = None.
Proof. repeat split; vm_compute; reflexivity. Qed.

(** C2: the class stored under (stream, function) declares that stream and
    that function, and therefore no class is stored under two pairs. *)
Theorem catalog_identity :
  (∀ stream function cls,
     Catalog_lookup stream function = Some cls →
     _stream cls = stream ∧ _function cls = function) ∧
  (∀ s1 f1 s2 f2 cls,
     Catalog_lookup s1 f1 = Some cls → Catalog_lookup s2 f2 = Some cls →
     s1 = s2 ∧ f1 = f2).
Proof.
  assert (H : ∀ stream function cls,
             Catalog_lookup stream function = Some cls →
             _stream cls = stream ∧ _function cls = function) by by_table.
  split; [exact H |].
  intros s1 f1 s2 f2 cls H1 H2.
  destruct (H _ _ _ H1), (H _ _ _ H2). split; congruence.
Qed.

Lemma catalog_identity_witness :
  _stream SecsS02F33 = 2 ∧ _function SecsS02F33 = 33.
Proof.
  apply (proj1 catalog_identity 2 33 SecsS02F33). vm_compute. reflexivity.
Defined.

(** C3, as stated, fails: S1F2 is registered, its descriptor is an array, and
    its [_isMultiBlock] is false. *)
Lemma Array_without_multiBlock :
  Catalog_lookup 1 2 = Some SecsS01F02 ∧
  _formatDescriptor SecsS01F02
    = Some (SecsVarArray (New SecsVarString (Some 20))) ∧
  isVarArray (SecsVarArray (New SecsVarString (Some 20))) = true ∧
  unboundedLength (SecsVarArray (New SecsVarString (Some 20))) = true ∧
  _isMultiBlock SecsS01F02 = false.
Proof. repeat split; vm_compute; reflexivity. Qed.

(** C3, amended: a registered class whose [_isMultiBlock] is true has a
    descriptor, and this descriptor contains a [SecsVarArray] or an item
    instantiated without a length. *)
Theorem multiBlock_only_if_unbounded stream function cls :
  Catalog_lookup stream function = Some cls →
  _isMultiBlock cls = true →
  ∃ fd, _formatDescriptor cls = Some fd ∧ unboundedLength fd = true.
Proof.
  revert stream function cls.
  assert (H : ∀ stream function cls,
             Catalog_lookup stream function = Some cls →
             _isMultiBlock cls = true →
             from_option unboundedLength false (_formatDescriptor cls) = true)
    by by_table.
  intros stream function cls Hl Hm. specialize (H _ _ _ Hl Hm).
  destruct (_formatDescriptor cls) as [fd|]; [by exists fd | discriminate].
Qed.

Lemma multiBlock_only_if_unbounded_witness :
  ∃ fd, _formatDescriptor SecsS12F09 = Some fd ∧ unboundedLength fd = true.
Proof.
  apply (multiBlock_only_if_unbounded 12 9 SecsS12F09);
    vm_compute; reflexivity.
Defined.

(** C5: a registered class that requires a reply has a reply. *)
Theorem replyRequired_hasReply stream function cls :
  Catalog_lookup stream function = Some cls →
  _isReplyRequired cls = true → _hasReply cls = true.
Proof. revert stream function cls. by_table. Qed.

Lemma replyRequired_hasReply_witness : _hasReply SecsS06F11 = true.
Proof.
  apply (replyRequired_hasReply 6 11 SecsS06F11); vm_compute; reflexivity.
Defined.

(** C6: a registered class goes to the equipment, to the host, or both. *)
Theorem some_direction stream function cls :
  Catalog_lookup stream function = Some cls →
  _toEquipment cls = true ∨ _toHost cls = true.
Proof. revert stream function cls. by_table. Qed.

Lemma some_direction_witness :
  _toEquipment SecsS05F01 = true ∨ _toHost SecsS05F01 = true.
Proof. apply (some_direction 5 1 SecsS05F01). vm_compute. reflexivity. Defined.

Section ordered_dict.

Context {V : Type}.
Implicit Types (d pairs : list (string * V)).

Lemma od_setitem_fresh k v d :
  k ∉ d.*1 → od_setitem k v d = d ++ [(k, v)].
Proof.
  induction d as [|[k' v'] d IH]; simpl; [done |].
  intros Hk. apply not_elem_of_cons in Hk as [Hne Hk].
  destruct (decide (k = k')); [done |]. by rewrite IH.
Qed.

Lemma foldl_od_setitem d pairs :
  NoDup (d ++ pairs).*1 →
  foldl (λ d kv, od_setitem kv.1 kv.2 d) d pairs = d ++ pairs.
Proof.
  revert d. induction pairs as [|[k v] pairs IH]; intros d Hd; simpl.
  - by rewrite app_nil_r.
  - rewrite fmap_app in Hd. simpl in Hd.
    rewrite od_setitem_fresh.
    + rewrite IH; [by rewrite <-app_assoc |].
      by rewrite <-app_assoc, fmap_app.
    + apply NoDup_app in Hd as (_ & Hd & _). intros Hk.
      apply (Hd _ Hk). by left.
Qed.

(** Pairs with pairwise different names are stored as they are given. *)
Lemma OrderedDict_NoDup pairs : NoDup pairs.*1 → OrderedDict pairs = pairs.
Proof. intros H. by apply (foldl_od_setitem []). Qed.

End ordered_dict.

(** C7: in the descriptor of a registered class, every [SecsVarList] node, at
    any depth, declares as many fields as it is given pairs, and the
    dictionary built from the pairs holds them in the order given. *)
Theorem list_arity_and_order stream function cls fd pairs fieldCount :
  Catalog_lookup stream function = Some cls →
  _formatDescriptor cls = Some fd →
  SecsVarList pairs fieldCount ∈ nodes fd →
  fieldCount = Z.of_nat (length pairs) ∧
  OrderedDict pairs = pairs ∧
  (OrderedDict pairs).*1 = pairs.*1.
Proof.
  revert stream function cls fd pairs fieldCount.
  assert (H : ∀ stream function cls,
             Catalog_lookup stream function = Some cls →
             Forall listNodeOk (descriptorNodes cls)) by by_table.
  intros stream function cls fd pairs fieldCount Hl Hfd Hin.
  specialize (H _ _ _ Hl). unfold descriptorNodes in H. rewrite Hfd in H.
  rewrite Forall_forall in H. destruct (H _ Hin) as [Hn Hnd].
  split; [exact Hn |]. by rewrite OrderedDict_NoDup.
Qed.

Lemma list_arity_and_order_witness :
  2 = Z.of_nat (length [("RPTID", DataItem "RPTID");
                        ("VID", SecsVarArray (DataItem "VID"))]) ∧
  OrderedDict [("RPTID", DataItem "RPTID");
               ("VID", SecsVarArray (DataItem "VID"))]
  = [("RPTID", DataItem "RPTID"); ("VID", SecsVarArray (DataItem "VID"))] ∧
  (OrderedDict [("RPTID", DataItem "RPTID");
                ("VID", SecsVarArray (DataItem "VID"))]).*1
  = ["RPTID"; "VID"].
Proof.
  eapply (list_arity_and_order 2 33 SecsS02F33).
  - vm_compute. reflexivity.
  - reflexivity.
  - simpl. right. right. right. left.
Defined.

(** C8: registered streams lie in 0..127 and registered functions in 0..255,
    as keys of the table and as attributes of the class. *)
Theorem stream_function_range stream function cls :
  Catalog_lookup stream function = Some cls →
  (0 ≤ stream ≤ 127 ∧ 0 ≤ function ≤ 255) ∧
  (0 ≤ _stream cls ≤ 127 ∧ 0 ≤ _function cls ≤ 255).
Proof. revert stream function cls. by_table. Qed.

Lemma stream_function_range_witness :
  (0 ≤ 14 ≤ 127 ∧ 0 ≤ 4 ≤ 255) ∧
  (0 ≤ _stream SecsS14F04 ≤ 127 ∧ 0 ≤ _function SecsS14F04 ≤ 255).
Proof.
  apply (stream_function_range 14 4 SecsS14F04). vm_compute. reflexivity.
Defined.

(** C9: function 0 is registered for the streams 0, 1, 2, 5, 6, 9, 10, 12
    and 14 and for no other; each of these classes has no descriptor, goes
    both ways, has no reply and is single-block; stream 7 is the only stream
    of the table without a function 0. *)
Theorem abort_entries :
  (∀ stream cls, Catalog_lookup stream 0 = Some cls → isAbort cls) ∧
  (∀ stream, is_Some (Catalog_lookup stream 0) ↔ stream ∈ abortStreams) ∧
  (∀ stream, stream ∈ registeredStreams ∧ Catalog_lookup stream 0 = None
             ↔ stream = 7).
Proof.
  assert (H : ∀ stream function cls,
             Catalog_lookup stream function = Some cls →
             function = 0 → isAbort cls ∧ stream ∈ abortStreams) by by_table.
  assert (Hs : ∀ stream, stream ∈ abortStreams →
                         is_Some (Catalog_lookup stream 0)).
  { intros stream Hin. unfold abortStreams in Hin.
    repeat (apply elem_of_cons in Hin as [->|Hin];
            [vm_compute; eexists; reflexivity |]).
    by apply elem_of_nil in Hin. }
  split; [| split].
  - intros stream cls Hl. by apply (H _ _ _ Hl).
  - intros stream. split; [| apply Hs].
    intros [cls Hl]. by apply (H _ _ _ Hl).
  - intros stream. split.
    + intros [Hin Hnone].
      assert (Hr : Forall (λ s, s = 7 ∨ s ∈ abortStreams) registeredStreams)
        by by_decide.
      rewrite Forall_forall in Hr. destruct (Hr _ Hin) as [->|Ha]; [done |].
      apply Hs in Ha as [cls Hcls]. congruence.
    + intros ->. split; [by_decide | vm_compute; reflexivity].
Qed.

Lemma abort_entries_witness : isAbort SecsS09F00.
Proof.
  apply (proj1 abort_entries 9 SecsS09F00). vm_compute. reflexivity.
Defined.

(** C10: a registered class with an even function number has no reply and
    requires none. *)
Theorem even_function_no_reply stream function cls :
  Catalog_lookup stream function = Some cls →
  Z.even function = true →
  _hasReply cls = false ∧ _isReplyRequired cls = false.
Proof. revert stream function cls. by_table. Qed.

Lemma even_function_no_reply_witness :
  _hasReply SecsS01F04 = false ∧ _isReplyRequired SecsS01F04 = false.
Proof.
  apply (even_function_no_reply 1 4 SecsS01F04); vm_compute; reflexivity.
Defined.

(** * Properties of the codec *)

(** ** The result monad *)

Lemma bind_Ok {A B} (m : result A) (f : A → result B) b :
  m ≫= f = Ok b ↔ ∃ a, m = Ok a ∧ f a = Ok b.
Proof.
  destruct m as [a|e]; simpl.
  - split; [intros H; by exists a | by intros (a' & [= ->] & H)].
  - split; [done | by intros (a' & [=] & _)].
Qed.

Lemma fmap_Ok {A B} (f : A → B) (m : result A) b :
  f <$> m = Ok b ↔ ∃ a, m = Ok a ∧ b = f a.
Proof.
  destruct m as [a|e]; simpl.
  - split; [intros [= <-]; by exists a | by intros (a' & [= ->] & ->)].
  - split; [done | by intros (a' & [=] & _)].
Qed.

Lemma traverse_Ok {A B} (f : A → result B) l bs :
  traverse f l = Ok bs ↔ Forall2 (λ a b, f a = Ok b) l bs.
Proof.
  revert bs. induction l as [|a l IH]; intros bs; simpl.
  - split; [intros [= <-]; constructor | by inversion 1].
  - rewrite bind_Ok. split.
    + intros (b & Hb & H). apply bind_Ok in H as (bs' & Hbs & [= <-]).
      constructor; [done | by apply IH].
    + inversion 1 as [|? b ? bs' Hb Hbs]; subst. exists b. split; [done |].
      apply bind_Ok. exists bs'. split; [by apply IH | done].
Qed.

(** Take a successful monadic computation apart. *)
Ltac inv_ok :=
  repeat match goal with
    | H : Ok _ = Ok _ |- _ => injection H as H; subst
    | H : Err _ = Ok _ |- _ => discriminate H
    | H : _ ≫= _ = Ok _ |- _ =>
        let x := fresh "x" in let Hx := fresh "Hx" in
        apply bind_Ok in H as (x & Hx & H)
    | H : _ <$> _ = Ok _ |- _ =>
        let x := fresh "x" in let Hx := fresh "Hx" in
        apply fmap_Ok in H as (x & Hx & H)
    | H : (if negb ?b then _ else _) = Ok _ |- _ =>
        let E := fresh "E" in destruct b eqn:E; simpl in H
    | H : (if ?b then _ else _) = Ok _ |- _ =>
        let E := fresh "E" in destruct b eqn:E
    end.

(** ** Bytes *)



Lemma length_bigEndian w z : length (bigEndian w z) = w.
Proof.
  revert z. induction w as [|w IH]; intros z; simpl; [done |].
  rewrite length_app, IH. simpl. lia.
Qed.




(** ** The item header *)






(** ** Scalars *)

Lemma width_pos f : 0 < width f.
Proof. destruct f; simpl; lia. Qed.

Lemma length_encodeElem f z : length (encodeElem f z) = Z.to_nat (width f).
Proof. apply length_bigEndian. Qed.



Lemma length_bind_encodeElem f elems :
  Z.of_nat (length (elems ≫= encodeElem f))
  = width f * Z.of_nat (length elems).
Proof.
  pose proof (width_pos f).
  induction elems as [|z elems IH]; [simpl; lia |].
  rewrite bind_cons, length_app, Nat2Z.inj_add, IH, length_encodeElem.
  rewrite length_cons. lia.
Qed.



(** ** Induction over the nested trees *)

Lemma FormatDescriptor_nested_ind (P : FormatDescriptor → Prop) :
  (∀ f c, P (ScalarSchema f c)) →
  (∀ fields arity,
     Forall (λ ks, P ks.2) fields → P (ListSchema fields arity)) →
  (∀ elem, P elem → P (ArraySchema elem)) →
  (∀ whitelist, P (DynamicUnion whitelist)) →
  ∀ s, P s.
Proof.
  intros Hscalar Hlist Harray Hdyn. fix IH 1. intros [f c|fields arity|elem|wl].
  - apply Hscalar.
  - apply Hlist. induction fields as [|[k s] fields IHf]; constructor.
    + apply IH.
    + apply IHf.
  - apply Harray, IH.
  - apply Hdyn.
Qed.

Lemma AppValue_nested_ind (P : AppValue → Prop) :
  (∀ z, P (Number z)) →
  (∀ f elems, P (Typed f elems)) →
  (∀ items, Forall P items → P (Sequence items)) →
  (∀ fields, Forall (λ kv, P kv.2) fields → P (ByName fields)) →
  ∀ a, P a.
Proof.
  intros Hnum Htyped Hseq Hname. fix IH 1. intros [z|f elems|items|fields].
  - apply Hnum.
  - apply Htyped.
  - apply Hseq. induction items as [|a items IHi]; constructor.
    + apply IH.
    + apply IHi.
  - apply Hname. induction fields as [|[k a] fields IHf]; constructor.
    + apply IH.
    + apply IHf.
Qed.

(** ** What the encoder writes *)


Section reader.

(** A reader that reads the headers the encoder writes. *)
Variable rd : HeaderReader.
Hypothesis rd_encodeHeader : ∀ f n header rest,
  encodeHeader f n = Ok header → rd (header ++ rest) = Ok (f, n, rest).




(** ** Reading the children back *)




(** ** A DynamicUnion *)



(** ** A schema tree *)

Lemma buildFields_cons bld k s fs a items :
  buildFields bld ((k, s) :: fs) (a :: items)
  = v ← bld s a; vs ← buildFields bld fs items; Ok ((k, v) :: vs).
Proof. reflexivity. Qed.





End reader.

(** ** The encoder on built values *)

Lemma encodeHeader_total f n :
  0 ≤ n < 2 ^ 24 → ∃ header, encodeHeader f n = Ok header.
Proof.
  intros Hn. unfold encodeHeader, lengthBytes.
  destruct (Z.ltb_spec n 0); [lia |].
  destruct (Z.ltb_spec n (2 ^ 8)); [by eexists |].
  destruct (Z.ltb_spec n (2 ^ 16)); [by eexists |].
  destruct (Z.ltb_spec n (2 ^ 24)); [by eexists | lia].
Qed.

Lemma traverse_total {A B} (f : A → result B) l :
  Forall (λ a, ∃ b, f a = Ok b) l → ∃ bs, traverse f l = Ok bs.
Proof.
  induction 1 as [|a l [b Hb] _ [bs Hbs]]; [by eexists |].
  exists (b :: bs). simpl. rewrite Hb. simpl. by rewrite Hbs.
Qed.

Lemma buildScalar_encode f c elems v :
  buildScalar f c elems = Ok v → encodable v = true →
  ∃ bs, encode v = Ok bs.
Proof.
  unfold buildScalar. intros H Hsize. inv_ok. cbn [encodable] in Hsize.
  apply Z.ltb_lt in Hsize. cbn [encode]. rewrite E, E0. simpl.
  destruct (encodeHeader_total f (Z.of_nat (length (elems ≫= encodeElem f))))
    as [header Hhdr].
  { rewrite length_bind_encodeElem. pose proof (width_pos f). nia. }
  rewrite Hhdr. by eexists.
Qed.

Lemma encode_children {A} (P : A → DataItemTree → Prop) items vs :
  Forall (λ a, ∀ v, P a v → encodable v = true → ∃ bs, encode v = Ok bs)
    items →
  Forall2 P items vs →
  forallb encodable vs = true →
  ∃ body, traverse encode vs = Ok body.
Proof.
  intros Hall Hbuild Hsize. apply traverse_total.
  induction Hbuild as [|a v items vs Hav _ IH]; [constructor |].
  simpl in Hsize. apply andb_true_iff in Hsize as [Hv Hsize].
  inversion Hall; subst. constructor; eauto.
Qed.

Lemma encode_array_total vs :
  encodable (ArrayItem vs) = true →
  (∃ body, traverse encode vs = Ok body) →
  ∃ bs, encode (ArrayItem vs) = Ok bs.
Proof.
  cbn [encodable]. intros Hsize [body Hbody].
  apply andb_true_iff in Hsize as [Hn _]. apply Z.ltb_lt in Hn.
  destruct (encodeHeader_total FList (Z.of_nat (length vs))) as [header Hhdr];
    [lia |].
  cbn [encode]. rewrite Hbody. simpl. rewrite Hhdr. by eexists.
Qed.

Lemma buildDynamic_encode a :
  ∀ whitelist v,
    buildDynamic whitelist a = Ok v → encodable v = true →
    ∃ bs, encode v = Ok bs.
Proof.
  induction a as [z|f elems|items IH|fields _] using AppValue_nested_ind;
    intros wl v Hbuild Hsize; cbn [buildDynamic] in Hbuild.
  - destruct (find _ integerFormats) as [f|] eqn:Hfind; [| done].
    injection Hbuild as <-. apply find_some in Hfind as [Hin Hf].
    apply andb_true_iff in Hf as [_ Hz].
    apply (buildScalar_encode f Unconstrained [z]); [| done].
    unfold buildScalar. simpl. rewrite Hz.
    by repeat destruct Hin as [<-|Hin].
  - destruct (permitted wl f); [| done].
    by apply (buildScalar_encode f Unconstrained elems).
  - destruct (permitted wl FList); [| done].
    inv_ok. subst v. apply traverse_Ok in Hx.
    apply encode_array_total; [done |].
    cbn [encodable] in Hsize. apply andb_true_iff in Hsize as [_ Hsize].
    apply (encode_children (λ a v, buildDynamic [] a = Ok v) items);
      [| done | done].
    eapply Forall_impl; [exact IH |]. simpl. eauto.
  - done.
Qed.

Lemma buildFields_encode fields :
  Forall (λ ks, ∀ a v, build ks.2 a = Ok v → encodable v = true →
                       ∃ bs, encode v = Ok bs) fields →
  ∀ items vs,
    buildFields build fields items = Ok vs →
    forallb (λ kv, encodable kv.2) vs = true →
    ∃ body, traverse (λ kv, encode kv.2) vs = Ok body.
Proof.
  induction 1 as [|[k s] fields Hs _ IH]; intros items vs Hb Hsize.
  - destruct items; [| done]. injection Hb as <-. by eexists.
  - destruct items as [|a items]; [done |].
    rewrite buildFields_cons in Hb. inv_ok.
    simpl in Hsize. apply andb_true_iff in Hsize as [Hv Hsize].
    destruct (Hs _ _ Hx Hv) as [b Hb].
    destruct (IH _ _ Hx0 Hsize) as [body Hbody].
    exists (b :: body). simpl. rewrite Hb. simpl. by rewrite Hbody.
Qed.

(** Below the size the length bytes can hold, [encode] has bytes for every
    value that [build] accepts. *)
Lemma encode_build s :
  ∀ a v, build s a = Ok v → encodable v = true → ∃ bs, encode v = Ok bs.
Proof.
  induction s as [f c|fields arity IH|elem IH|wl]
    using FormatDescriptor_nested_ind; intros a v Hbuild Hsize.
  - destruct a as [z|f' elems|items|r]; cbn [build] in Hbuild.
    + by apply (buildScalar_encode f c [z]).
    + destruct (bool_decide (f' = f)); [| done].
      by apply (buildScalar_encode f c elems).
    + inv_ok. by apply (buildScalar_encode f c x).
    + done.
  - cbn [build] in Hbuild. inv_ok. subst v.
    cbn [encodable] in Hsize. apply andb_true_iff in Hsize as [Hn Hsize].
    apply Z.ltb_lt in Hn.
    destruct (buildFields_encode fields IH _ _ Hx0 Hsize) as [body Hbody].
    destruct (encodeHeader_total FList (Z.of_nat (length x0)))
      as [header Hhdr]; [lia |].
    cbn [encode]. rewrite Hbody. simpl. rewrite Hhdr. by eexists.
  - destruct a as [z|f' elems|items|r]; cbn [build] in Hbuild; try done.
    inv_ok. subst v. apply traverse_Ok in Hx.
    apply encode_array_total; [done |].
    cbn [encodable] in Hsize. apply andb_true_iff in Hsize as [_ Hsize].
    apply (encode_children (λ a v, build elem a = Ok v) items);
      [| done | done].
    apply Forall_forall. intros a _ v Hv Hv'. by apply (IH a).
  - by apply (buildDynamic_encode a wl).
Qed.


(** ** Bytes with minimal headers *)










(** ** Encoding what was decoded *)








(** ** One reader for another *)

Section readers.

Variables rd1 rd2 : HeaderReader.
Hypothesis rd_also : ∀ bs r, rd1 bs = Ok r → rd2 bs = Ok r.






End readers.


(** ** The schemas of the registered classes *)




(** ** Messages *)




(** * Further properties of the declarations *)

(** X1: a registered class that has a reply is followed, in the same stream,
    by the class of the next function, which is its reply. *)
Theorem reply_registered stream function cls :
  Catalog_lookup stream function = Some cls →
  _hasReply cls = true →
  is_Some (Catalog_lookup stream (function + 1)).
Proof. revert stream function cls. by_table. Qed.

Lemma reply_registered_witness : is_Some (Catalog_lookup 6 (11 + 1)).
Proof.
  apply (reply_registered 6 11 SecsS06F11); vm_compute; reflexivity.
Defined.

(** X2: a registered class with an even function other than 0 is preceded,
    in the same stream, by a class that has a reply: every secondary has its
    primary. *)
Theorem primary_registered stream function cls :
  Catalog_lookup stream function = Some cls →
  Z.even function = true → function ≠ 0 →
  ∃ primary,
    Catalog_lookup stream (function - 1) = Some primary ∧
    _hasReply primary = true.
Proof.
  revert stream function cls.
  assert (H : ∀ stream function cls,
             Catalog_lookup stream function = Some cls →
             Z.even function = true → function ≠ 0 →
             _hasReply <$> Catalog_lookup stream (function - 1) = Some true)
    by by_table.
  intros stream function cls Hl He Hn. specialize (H _ _ _ Hl He Hn).
  destruct (Catalog_lookup stream (function - 1)) as [primary|]; [| done].
  exists primary. split; [done | by injection H].
Qed.

Lemma primary_registered_witness :
  ∃ primary,
    Catalog_lookup 12 (18 - 1) = Some primary ∧ _hasReply primary = true.
Proof.
  apply (primary_registered 12 18 SecsS12F18); vm_compute;
    [reflexivity | reflexivity | discriminate].
Defined.

(** X3: the reply of a registered primary goes to the equipment whenever the
    primary goes to the host; and, S2F35 apart, the directions of the reply
    are those of the primary exchanged. S2F36, the reply of S2F35, is
    declared with the directions of S2F35 itself. *)
Theorem reply_direction stream function primary reply :
  Catalog_lookup stream function = Some primary →
  _hasReply primary = true →
  Catalog_lookup stream (function + 1) = Some reply →
  (_toHost primary = true → _toEquipment reply = true) ∧
  ((stream, function) ≠ (2, 35) → mirrors primary reply) ∧
  ((stream, function) = (2, 35) →
   _toHost reply = _toHost primary ∧
   _toEquipment reply = _toEquipment primary).
Proof.
  revert stream function primary reply.
  assert (H : ∀ stream function primary,
             Catalog_lookup stream function = Some primary →
             _hasReply primary = true →
             from_option
               (λ reply,
                  (_toHost primary = true → _toEquipment reply = true) ∧
                  ((stream, function) ≠ (2, 35) → mirrors primary reply) ∧
                  ((stream, function) = (2, 35) →
                   _toHost reply = _toHost primary ∧
                   _toEquipment reply = _toEquipment primary))
               True (Catalog_lookup stream (function + 1)))
    by by_table.
  intros stream function primary reply Hl Hr Hreply.
  specialize (H _ _ _ Hl Hr). by rewrite Hreply in H.
Qed.

Lemma reply_direction_witness :
  (_toHost SecsS06F11 = true → _toEquipment SecsS06F12 = true) ∧
  ((6, 11) ≠ (2, 35) → mirrors SecsS06F11 SecsS06F12) ∧
  ((6, 11) = (2, 35) →
   _toHost SecsS06F12 = _toHost SecsS06F11 ∧
   _toEquipment SecsS06F12 = _toEquipment SecsS06F11).
Proof.
  apply (reply_direction 6 11 SecsS06F11 SecsS06F12); vm_compute; reflexivity.
Defined.

(** X4: every class that [functions.py] declares, [SecsS07F00] apart, is
    found in the table under the stream and the function it declares;
    [SecsS07F00] is declared with the attributes of an abort class, and the
    table has no class for (7, 0). *)
Theorem declared_registered :
  Forall (λ cls, __name__ cls ≠ "SecsS07F00" →
                 Catalog_lookup (_stream cls) (_function cls) = Some cls)
    declaredClasses ∧
  SecsS07F00 ∈ declaredClasses ∧
  isAbort SecsS07F00 ∧
  Catalog_lookup (_stream SecsS07F00) (_function SecsS07F00) = None.
Proof.
  split; [| split; [| split]].
  - unfold declaredClasses.
    repeat (constructor;
            [first [ intros _; vm_compute; reflexivity
                   | intros Hn; by destruct Hn ] |]).
    constructor.
  - unfold declaredClasses. apply list_elem_of_In. simpl. tauto.
  - by_decide.
  - vm_compute. reflexivity.
Qed.

Lemma declared_registered_witness :
  Catalog_lookup (_stream SecsS01F04) (_function SecsS01F04) = Some SecsS01F04.
Proof.
  apply (proj1 (Forall_forall _ _) (proj1 declared_registered) SecsS01F04).
  - unfold declaredClasses. do 5 right. left.
  - discriminate.
Defined.

(** X5: the name of every declared class is [SecsS], the stream in two
    digits, [F], and the function in two digits. *)
Theorem class_names :
  Forall (λ cls, __name__ cls = className (_stream cls) (_function cls))
    declaredClasses.
Proof. by_decide. Qed.

(** X6: no two declared classes declare the same (stream, function) pair. *)
Theorem identities_distinct : NoDup (identity <$> declaredClasses).
Proof. by_decide. Qed.

(** X7: in the descriptor of a registered class, a field of a list that
    holds a named data item, itself or as the element of an array, bears the
    name of the item. *)
Theorem field_names_item stream function cls fd pairs fieldCount k v name :
  Catalog_lookup stream function = Some cls →
  _formatDescriptor cls = Some fd →
  SecsVarList pairs fieldCount ∈ nodes fd →
  (k, v) ∈ pairs →
  heldItem v = Some name →
  k = name.
Proof.
  revert stream function cls fd pairs fieldCount k v name.
  assert (H : ∀ stream function cls,
             Catalog_lookup stream function = Some cls →
             Forall fieldNamesOk (descriptorNodes cls)) by by_table.
  intros stream function cls fd pairs fieldCount k v name Hl Hfd Hin Hkv Hv.
  specialize (H _ _ _ Hl). unfold descriptorNodes in H. rewrite Hfd in H.
  rewrite Forall_forall in H. specialize (H _ Hin). simpl in H.
  rewrite Forall_forall in H. specialize (H _ Hkv). simpl in H.
  by rewrite Hv in H.
Qed.

Lemma field_names_item_witness : "VID" = "VID".
Proof.
  eapply (field_names_item 2 33 SecsS02F33 _
            [("RPTID", DataItem "RPTID");
             ("VID", SecsVarArray (DataItem "VID"))] 2
            "VID" (SecsVarArray (DataItem "VID")) "VID").
  - vm_compute. reflexivity.
  - reflexivity.
  - simpl. right. right. right. left.
  - right. left.
  - reflexivity.
Defined.

(** X8: the descriptor of a registered class nests at most six levels deep,
    and that of S6F8 does nest six levels. *)
Theorem descriptor_depth :
  (∀ stream function cls,
     Catalog_lookup stream function = Some cls →
     Forall (λ fd, (depth fd ≤ 6)%nat) (option_list (_formatDescriptor cls))) ∧
  depth <$> _formatDescriptor SecsS06F08 = Some 6%nat.
Proof. split; [by_table | vm_compute; reflexivity]. Qed.

Lemma descriptor_depth_witness :
  Forall (λ fd, (depth fd ≤ 6)%nat)
    (option_list (_formatDescriptor SecsS14F02)).
Proof.
  apply (proj1 descriptor_depth 14 2 SecsS14F02). vm_compute. reflexivity.
Defined.

(** X9: the classes registered in stream 9, its function 0 apart, go to the
    host only, have no reply and are single-block. *)
Theorem stream9_to_host function cls :
  Catalog_lookup 9 function = Some cls →
  function ≠ 0 →
  _toHost cls = true ∧ _toEquipment cls = false ∧
  _hasReply cls = false ∧ _isReplyRequired cls = false ∧
  _isMultiBlock cls = false.
Proof.
  revert function cls.
  assert (H : ∀ stream function cls,
             Catalog_lookup stream function = Some cls →
             stream = 9 → function ≠ 0 →
             _toHost cls = true ∧ _toEquipment cls = false ∧
             _hasReply cls = false ∧ _isReplyRequired cls = false ∧
             _isMultiBlock cls = false) by by_table.
  intros function cls Hl Hn. by apply (H 9 function).
Qed.

Lemma stream9_to_host_witness :
  _toHost SecsS09F13 = true ∧ _toEquipment SecsS09F13 = false ∧
  _hasReply SecsS09F13 = false ∧ _isReplyRequired SecsS09F13 = false ∧
  _isMultiBlock SecsS09F13 = false.
Proof.
  apply (stream9_to_host 13 SecsS09F13); vm_compute;
    [reflexivity | discriminate].
Defined.

(** X10: a registered class has a reply that it does not require exactly
    when it is S5F1, S10F1 or S10F3. *)
Theorem optional_reply stream function cls :
  Catalog_lookup stream function = Some cls →
  (_hasReply cls = true ∧ _isReplyRequired cls = false
   ↔ (stream, function) ∈ optionalReply).
Proof. revert stream function cls. by_table. Qed.

Lemma optional_reply_witness :
  _hasReply SecsS10F03 = true ∧ _isReplyRequired SecsS10F03 = false
  ↔ (10, 3) ∈ optionalReply.
Proof. apply (optional_reply 10 3 SecsS10F03). vm_compute. reflexivity. Defined.

(** X11: a registered class without descriptor is an abort class, of
    function 0, or a primary that requires its reply. *)
Theorem no_descriptor stream function cls :
  Catalog_lookup stream function = Some cls →
  _formatDescriptor cls = None →
  function = 0 ∨ (_hasReply cls = true ∧ _isReplyRequired cls = true).
Proof. revert stream function cls. by_table. Qed.

Lemma no_descriptor_witness :
  17 = 0 ∨ (_hasReply SecsS02F17 = true ∧ _isReplyRequired SecsS02F17 = true).
Proof.
  apply (no_descriptor 2 17 SecsS02F17); vm_compute; reflexivity.
Defined.

(** X12: the lookup gives [None] for every stream that is not one of the ten
    streams of the table, and for every function below 0 or above 42. *)
Theorem lookup_unknown stream function :
  stream ∉ knownStreams ∨ function < 0 ∨ 42 < function →
  Catalog_lookup stream function = None.
Proof.
  assert (H : ∀ stream function cls,
             Catalog_lookup stream function = Some cls →
             stream ∈ knownStreams ∧ 0 ≤ function ≤ 42) by by_table.
  intros Hout.
  destruct (Catalog_lookup stream function) as [cls|] eqn:Hl; [| done].
  destruct (H _ _ _ Hl) as [Hs Hf]. destruct Hout as [Hout|Hout]; [done | lia].
Qed.

Lemma lookup_unknown_witness : Catalog_lookup 3 1 = None.
Proof.
  apply (lookup_unknown 3 1). left. by_decide.
Defined.

(** X13: [RELATION] gives each of its eight names a code of its own, and the
    codes are the numbers 0 to 7. *)
Theorem RELATION_codes :
  (∀ n1 n2 code,
     RELATION !! n1 = Some code → RELATION !! n2 = Some code → n1 = n2) ∧
  (∀ code, (∃ name, RELATION !! name = Some code) ↔ 0 ≤ code ≤ 7).
Proof.
  assert (Hl : ∀ name code,
             RELATION !! name = Some code ↔
             (name, code) ∈ map_to_list RELATION).
  { intros. by rewrite elem_of_map_to_list. }
  assert (Hnd : NoDup (map_to_list RELATION).*2) by by_decide.
  assert (Hr : Forall (λ kv, 0 ≤ kv.2 ≤ 7) (map_to_list RELATION))
    by by_decide.
  split.
  - intros n1 n2 code H1 H2.
    apply elem_of_map_to_list in H1, H2.
    apply list_elem_of_lookup in H1 as [i Hi], H2 as [j Hj].
    assert (i = j) as ->.
    { eapply NoDup_lookup; [exact Hnd | |];
        rewrite list_lookup_fmap; [by rewrite Hi | by rewrite Hj]. }
    congruence.
  - intros code. split.
    + intros [name Hn]. apply Hl in Hn.
      rewrite Forall_forall in Hr. exact (Hr _ Hn).
    + intros Hc.
      assert (code = 0 ∨ code = 1 ∨ code = 2 ∨ code = 3 ∨
              code = 4 ∨ code = 5 ∨ code = 6 ∨ code = 7) as Hcases by lia.
      destruct Hcases as [->|[->|[->|[->|[->|[->|[->| ->]]]]]]];
        [ exists "EQUAL" | exists "NOTEQUAL" | exists "LESS"
        | exists "LESSEQUAL" | exists "GREATER" | exists "GREATEREQUAL"
        | exists "PRESENT" | exists "NOTPRESENT" ];
        vm_compute; reflexivity.
Qed.

Lemma RELATION_codes_witness : "LESS" = "LESS".
Proof.
  apply (proj1 RELATION_codes "LESS" "LESS" 2); vm_compute; reflexivity.
Defined.

Lemma isSublist_sublist l k : isSublist l k = true → l `sublist_of` k.
Proof.
  revert l. induction k as [|y k IH]; intros [|x l] H; simpl in H;
    try done; try by constructor.
  - apply sublist_nil_l.
  - destruct (decide (x = y)) as [->|_].
    + apply sublist_skip. by apply IH.
    + apply sublist_cons. by apply IH.
Qed.

(** X14: in the descriptor of a registered class, every whitelist of a
    [SecsVarDynamic] names its classes in the order text, U1, U2, U4, U8,
    I1, I2, I4, I8, none of them twice. *)
Theorem whitelist_order stream function cls fd types :
  Catalog_lookup stream function = Some cls →
  _formatDescriptor cls = Some fd →
  SecsVarDynamic types ∈ nodes fd →
  types `sublist_of` typeOrder ∧ NoDup types.
Proof.
  revert stream function cls fd types.
  assert (H : ∀ stream function cls,
             Catalog_lookup stream function = Some cls →
             Forall whitelistOk (descriptorNodes cls)) by by_table.
  intros stream function cls fd types Hl Hfd Hin.
  specialize (H _ _ _ Hl). unfold descriptorNodes in H. rewrite Hfd in H.
  rewrite Forall_forall in H. specialize (H _ Hin).
  apply (isSublist_sublist types typeOrder) in H. split; [exact H |].
  eapply sublist_NoDup; [| exact H]. by_decide.
Qed.

Lemma whitelist_order_witness :
  [SecsVarString; SecsVarU1] `sublist_of` typeOrder ∧
  NoDup [SecsVarString; SecsVarU1].
Proof.
  eapply (whitelist_order 12 3 SecsS12F03).
  - vm_compute. reflexivity.
  - reflexivity.
  - simpl. do 9 right. left.
Defined.
